(** * Ping monitor (widget.py): embedding and verification

    The monitoring engine of [widget.py] is embedded function by function:
    the probe classifier [check_target], the report store
    ([ensure_workbook], [update_grafik_sheet], [write_rekap],
    [read_last_7_days]), the per-target incident tracker of
    [MonitorApp.tick] / [HeadlessPingMonitor.run], the recap scheduler
    [schedule_rekap_if_needed] and the manual flush [rekap_now].

    Conventions.
    - Python [str] is [string]; [dict] with [str] keys is [gmap string _];
      Python [int] is [Z].
    - A Python exception is an explicit [Raise]/[None] result.
    - The ping subprocess, the environment variables, the wall clock and the
      files on disk are inputs of the model. *)

From Stdlib Require Import ZArith Ascii String DecimalString DecimalZ.
From stdpp Require Import base option list gmap strings.

Local Open Scope Z_scope.

(** * Python string primitives *)

Module PyStr.

(** [needle in hay] on [str]. *)
Fixpoint contains (needle hay : string) : bool :=
  String.prefix needle hay ||
  match hay with
  | EmptyString => false
  | String _ rest => contains needle rest
  end.

(** [s.startswith(p)]. *)
Definition startswith (p s : string) : bool := String.prefix p s.

(** [c.lower()] for one character; letters outside ASCII are left as
    they are. *)
Definition lower_char (c : ascii) : ascii :=
  let n := N_of_ascii c in
  if ((65 <=? n) && (n <=? 90))%N then ascii_of_N (n + 32) else c.

(** [s.lower()]. *)
Fixpoint lower (s : string) : string :=
  match s with
  | EmptyString => EmptyString
  | String c rest => String (lower_char c) (lower rest)
  end.

(** [sep.join(parts)]. *)
Fixpoint join (sep : string) (parts : list string) : string :=
  match parts with
  | [] => ""
  | [p] => p
  | p :: rest => p +:+ sep +:+ join sep rest
  end.

(** [str(n)] for an [int]. *)
Definition str_int (n : Z) : string := NilZero.string_of_int (Z.to_int n).

(** [str.isspace] on the ASCII range. *)
Definition is_space (c : ascii) : bool :=
  let n := N_of_ascii c in
  (((9 <=? n) && (n <=? 13)) || ((28 <=? n) && (n <=? 32)))%N.

Fixpoint lstrip (s : string) : string :=
  match s with
  | EmptyString => EmptyString
  | String c rest => if is_space c then lstrip rest else s
  end.

Fixpoint rstrip (s : string) : string :=
  match s with
  | EmptyString => EmptyString
  | String c rest =>
      match rstrip rest with
      | EmptyString => if is_space c then EmptyString else String c EmptyString
      | r => String c r
      end
  end.

Definition strip (s : string) : string := rstrip (lstrip s).

Definition is_digit (c : ascii) : bool :=
  let n := N_of_ascii c in ((48 <=? n) && (n <=? 57))%N.

(** Every character of [s] satisfies [p]. *)
Fixpoint all_chars (p : ascii → bool) (s : string) : bool :=
  match s with
  | EmptyString => true
  | String c rest => p c && all_chars p rest
  end.

(** Digit groups of an integer literal: digits, with single underscores
    allowed between two digits. [prev] tells whether the previous
    character was a digit. *)
Fixpoint grouped (prev : bool) (s : string) : bool :=
  match s with
  | EmptyString => prev
  | String c rest =>
      if is_digit c then grouped true rest
      else if Ascii.eqb c "_" then prev && grouped false rest
      else false
  end.

Fixpoint drop_underscores (s : string) : string :=
  match s with
  | EmptyString => EmptyString
  | String c rest =>
      if Ascii.eqb c "_" then drop_underscores rest
      else String c (drop_underscores rest)
  end.

Definition digits_value (s : string) : option Z :=
  if grouped false s
  then Z.of_uint <$> NilZero.uint_of_string (drop_underscores s)
  else None.

(** [int(s)] for a [str], base 10, ASCII digits; [None] is [ValueError]. *)
Definition int_of_str (s : string) : option Z :=
  match strip s with
  | String c rest =>
      if Ascii.eqb c "-" then Z.opp <$> digits_value rest
      else if Ascii.eqb c "+" then digits_value rest
      else digits_value (String c rest)
  | EmptyString => None
  end.

(** Two-digit, zero-padded field of [strftime] ([%H], [%M], [%d], [%m]). *)
Definition pad2 (n : Z) : string :=
  if n <? 10 then "0" +:+ str_int n else str_int n.

(** Four-digit, zero-padded year of [strftime] ([%Y]). *)
Definition pad4 (n : Z) : string :=
  if n <? 10 then "000" +:+ str_int n
  else if n <? 100 then "00" +:+ str_int n
  else if n <? 1000 then "0" +:+ str_int n
  else str_int n.

(** [s.split(sep)] for a separator of one character. *)
Fixpoint split (sep : ascii) (s : string) : list string :=
  match s with
  | EmptyString => [EmptyString]
  | String c rest =>
      if Ascii.eqb c sep then EmptyString :: split sep rest
      else match split sep rest with
           | p :: ps => String c p :: ps
           | [] => [String c EmptyString]
           end
  end.

End PyStr.

(** * Configuration read at start-up (lines 65-86) *)

Module Config.

(** [os.environ.get]. *)
Definition environ_get (environ : gmap string string) (k : string)
  : option string := environ !! k.

(** [USE_DUMMY] as computed at import time from the capability flag
    [TK_AVAILABLE] and the environment. *)
Definition USE_DUMMY (TK_AVAILABLE : bool) (environ : gmap string string)
  : bool :=
  let ENV_USE_DUMMY := environ_get environ "USE_DUMMY" in
  let ENV_FORCE_REAL := environ_get environ "FORCE_REAL" in
  if TK_AVAILABLE
  then bool_decide (ENV_USE_DUMMY = Some "1")
  else bool_decide (ENV_FORCE_REAL ≠ Some "1").

Definition REKAP_ORDER : list string :=
  ["Server"; "Desktop"; "HP"; "Mitraskon"; "Mitralindo"; "Trekons"].

(** [TARGETS]: name and host of every monitored endpoint. *)
Definition TARGETS : list (string * string) :=
  [("Server", "192.168.8.8"); ("Desktop", "192.168.9.1");
   ("HP", "192.168.11.1"); ("Mitraskon", "mitraskon.com");
   ("Mitralindo", "mitralindo.com"); ("Trekons", "trekons.com")].

End Config.

(** * Probe: [check_target] (lines 149-189) *)

Module Probe.

(** Exceptions [subprocess.run] can raise; all of them derive from
    [Exception]. *)
Inductive exn :=
| TimeoutExpired
| OSError
| UnicodeDecodeError
| OtherException (msg : string).

(** What a Python call does: it returns a value or raises. *)
Inductive outcome (A : Type) :=
| Return (a : A)
| Raise (e : exn).
Arguments Return {A} a.
Arguments Raise {A} e.

(** [try: body / except Exception: handler]. *)
Definition try_except {A} (body : outcome A) (handler : outcome A)
  : outcome A :=
  match body with
  | Return a => Return a
  | Raise _ => handler
  end.

(** The [CompletedProcess] fields [check_target] reads. *)
Record CompletedProcess := {
  returncode : Z;
  stdout : option string }.

Section CheckTarget.
(** [platform.system()], the [PING_COUNT] setting and the behaviour of
    [subprocess.run] on a given argument vector. *)
Variable platform_system : string.
Variable PING_COUNT : string.
Variable subprocess_run : list string → outcome CompletedProcess.

Definition ping_param : string :=
  if bool_decide (PyStr.lower platform_system = "windows")
  then "-n" else "-c".

(** Lines 180-187: classification of a completed run. *)
Definition classify (result : CompletedProcess) : string :=
  let out := PyStr.lower (default "" (stdout result)) in
  if bool_decide (returncode result ≠ 0) || PyStr.contains "unreachable" out
  then "DOWN"
  else if PyStr.contains "lost = 0" out
          || PyStr.contains "0% packet loss" out
  then "UP"
  else if PyStr.contains "lost =" out || PyStr.contains "packet loss" out
  then "WARNING"
  else "DOWN".

(** Body of the [try] block. The start-up options that hide the console
    window on Windows have no part in the result. *)
Definition check_target_body (host : string) : outcome string :=
  match subprocess_run ["ping"; ping_param; PING_COUNT; host] with
  | Return result => Return (classify result)
  | Raise e => Raise e
  end.

Definition check_target (host : string) : outcome string :=
  try_except (check_target_body host) (Return "DOWN").

End CheckTarget.

(** A probe that failed: the call raised, the exit status is not zero, the
    target is reported unreachable, or the output carries no loss
    statistics at all (no output, or output in an unknown form). *)
Definition failure (r : outcome CompletedProcess) : Prop :=
  match r with
  | Raise _ => True
  | Return p =>
      let out := PyStr.lower (default "" (stdout p)) in
      returncode p ≠ 0
      ∨ PyStr.contains "unreachable" out = true
      ∨ (PyStr.contains "lost =" out = false
         ∧ PyStr.contains "packet loss" out = false)
  end.

(** Line feed. *)
Definition LF : string := String (ascii_of_nat 10) EmptyString.

(** What iputils [ping -c 2] prints when the first echo is answered and
    the second is lost; its exit status is 0. *)
Definition linux_one_of_two_lost : string :=
  "PING 192.168.8.8 (192.168.8.8) 56(84) bytes of data." +:+ LF +:+
  "64 bytes from 192.168.8.8: icmp_seq=1 ttl=64 time=0.412 ms" +:+ LF +:+
  LF +:+
  "--- 192.168.8.8 ping statistics ---" +:+ LF +:+
  "2 packets transmitted, 1 received, 50% packet loss, time 1001ms" +:+ LF +:+
  "rtt min/avg/max/mdev = 0.412/0.412/0.412/0.000 ms" +:+ LF.

(** What Windows [ping -n 2] prints in the same situation. *)
Definition windows_one_of_two_lost : string :=
  "Pinging 192.168.8.8 with 32 bytes of data:" +:+ LF +:+
  "Reply from 192.168.8.8: bytes=32 time<1ms TTL=64" +:+ LF +:+
  "Request timed out." +:+ LF +:+
  LF +:+
  "Ping statistics for 192.168.8.8:" +:+ LF +:+
  "    Packets: Sent = 2, Received = 1, Lost = 1 (50% loss)," +:+ LF.

End Probe.


(** * Wall clock: the parts of [datetime] the program uses *)

Module Clock.

Record date := mkdate { year : Z; month : Z; day : Z }.

Record datetime := mkdatetime {
  date_of : date;       (* [now.date()] *)
  hour : Z;
  minute : Z;
  second : Z }.

#[global] Instance date_eq_dec : EqDecision date.
Proof. solve_decision. Defined.

(** CPython's proleptic Gregorian ordinal, as in [datetime.py]. *)
Definition is_leap (y : Z) : bool :=
  (y mod 4 =? 0) && (negb (y mod 100 =? 0) || (y mod 400 =? 0)).

Definition days_before_year (y : Z) : Z :=
  let p := y - 1 in p * 365 + p / 4 - p / 100 + p / 400.

Definition DAYS_BEFORE_MONTH : list Z :=
  [0; 31; 59; 90; 120; 151; 181; 212; 243; 273; 304; 334].

Definition days_before_month (y m : Z) : Z :=
  default 0 (DAYS_BEFORE_MONTH !! Z.to_nat (m - 1))
  + (if (2 <? m) && is_leap y then 1 else 0).

Definition toordinal (d : date) : Z :=
  days_before_year (year d) + days_before_month (year d) (month d) + day d.

(** [d.weekday()]: Monday is 0, Sunday is 6. *)
Definition date_weekday (d : date) : Z := (toordinal d + 6) mod 7.

Definition weekday (now : datetime) : Z := date_weekday (date_of now).

(** [now.strftime("%H:%M")]. *)
Definition strftime_HM (now : datetime) : string :=
  PyStr.pad2 (hour now) +:+ ":" +:+ PyStr.pad2 (minute now).

(** [today.strftime("%d/%m/%Y")]. *)
Definition strftime_dmY (d : date) : string :=
  PyStr.pad2 (day d) +:+ "/" +:+ PyStr.pad2 (month d) +:+ "/"
  +:+ PyStr.pad4 (year d).

End Clock.

(** * Report store (lines 192-386)

    A worksheet is the grid of its cell values: row [r] (counted from 1) is
    element [r - 1] of the list, and its cells are listed up to the last
    cell that exists in that row; a cell without a value is [VNone].
    Floating-point cells, styles and charts are outside the model, and so
    are failures of the operating system while a file is read or written:
    [load_workbook] raises only on content it rejects, and a save
    succeeds. *)

Module Store.

Import Config.

Inductive value :=
| VNone
| VStr (s : string)
| VInt (n : Z).

#[global] Instance value_eq_dec : EqDecision value.
Proof. solve_decision. Defined.

Definition sheet := list (list value).

Record Workbook := mkWorkbook {
  Rekap : sheet;              (* the active sheet, titled "Rekap" *)
  Grafik : option sheet }.    (* the derived sheet "Grafik", when present *)

(** Content of [rekap_ping.xlsx]: a workbook, or bytes that
    [load_workbook] rejects. *)
Inductive xlsx_file :=
| Corrupt
| Book (wb : Workbook).

(** The two report files; [None] is a file that does not exist. The CSV
    file is the list of its records as [csv.reader] returns them. *)
Record Disk := mkDisk {
  xlsx : option xlsx_file;
  csv : option (list (list string)) }.

Inductive mode := Mxlsx | Mcsv.

(** ** openpyxl worksheet primitives *)

(** Rows up to the last one that holds a cell. *)
Fixpoint used_rows (ws : sheet) : sheet :=
  match ws with
  | [] => []
  | r :: rest =>
      match used_rows rest with
      | [] => match r with [] => [] | _ => [r] end
      | rest' => r :: rest'
      end
  end.

(** [ws._current_row] after loading. *)
Definition current_row (ws : sheet) : nat := length (used_rows ws).

Definition max_row (ws : sheet) : nat := Nat.max 1 (current_row ws).

Definition max_column (ws : sheet) : nat :=
  Nat.max 1 (foldr (λ r acc, Nat.max (length r) acc) 0%nat ws).

(** [ws.cell(r, c).value]. *)
Definition cell_value (ws : sheet) (r c : nat) : value :=
  default VNone (default [] (ws !! pred r) !! pred c).

(** [xs] extended to [n] elements with [x]. *)
Definition pad_to {A} (n : nat) (x : A) (xs : list A) : list A :=
  xs ++ replicate (n - length xs) x.

(** [ws.cell(r, c, v)]: the cell is created if needed, then assigned. *)
Definition set_cell (ws : sheet) (r c : nat) (v : value) : sheet :=
  let ws' := pad_to r [] ws in
  let row := pad_to c VNone (default [] (ws' !! pred r)) in
  <[pred r := <[pred c := v]> row]> ws'.

(** [ws.append(row)]: the row goes below the last used one. *)
Definition append (ws : sheet) (row : list value) : sheet :=
  used_rows ws ++ [row].

(** [list(ws.iter_rows(values_only=True))]. *)
Definition iter_rows (ws : sheet) : list (list value) :=
  match used_rows ws with
  | [] => []
  | rows => map (pad_to (max_column ws) VNone) rows
  end.

(** [str(v)] of a cell value. *)
Definition str_value (v : value) : string :=
  match v with
  | VNone => "None"
  | VStr s => s
  | VInt n => PyStr.str_int n
  end.

(** [str(v or "")]. *)
Definition str_or_empty (v : value) : string :=
  match v with
  | VNone => ""
  | VStr s => s
  | VInt n => if bool_decide (n = 0) then "" else PyStr.str_int n
  end.

(** The header written for a new report. *)
Definition full_header : list string :=
  ["Tanggal"] ++ map (λ n, "Down " +:+ n) REKAP_ORDER
              ++ map (λ n, "JamDown " +:+ n) REKAP_ORDER.

(** Lines 209-214: a new workbook holding only the header. *)
Definition new_workbook : Workbook :=
  mkWorkbook (append [] (map VStr full_header)) None.

(** [any(str(h or "").startswith("JamDown ") for h in headers)]. *)
Definition has_jamdown (headers : list value) : bool :=
  existsb (λ h, PyStr.startswith "JamDown " (str_or_empty h)) headers.

(** Lines 201-205: the header cells are read, and a header without any
    [JamDown] column gets one such column per target at the right end. *)
Definition migrate_header (ws : sheet) : option sheet :=
  let headers := map (cell_value ws 1) (seq 1 (max_column ws)) in
  if negb (has_jamdown headers)
  then
    let touched := <[0%nat := headers]> (pad_to 1 [] ws) in
    Some (foldl (λ w name,
                   set_cell w 1 (max_column w + 1) (VStr ("JamDown " +:+ name)))
                touched REKAP_ORDER)
  else None.

(** [xs[-n:]] for a positive [n]. *)
Definition last_n {A} (n : nat) (xs : list A) : list A :=
  drop (length xs - n) xs.

(** [rows[1:] if len(rows) > 1 else []]. *)
Definition body_of {A} (rows : list A) : list A :=
  if bool_decide (1 < length rows)%nat then drop 1 rows else [].

(** Lines 274 and 228: header text to column number; a later column with
    the same text replaces an earlier one. *)
Definition header_map (ws : sheet) : gmap string nat :=
  foldl (λ h c, <[str_value (cell_value ws 1 c) := c]> h) ∅
        (seq 1 (max_column ws)).

(** Lines 283-288: the count of one target in one row of the sheet. *)
Definition grafik_count (hmap : gmap string nat) (r : list value)
    (name : string) : value :=
  match hmap !! ("Down " +:+ name) with
  | Some cidx =>
      if bool_decide (cidx ≠ 0%nat) && bool_decide (cidx - 1 < length r)%nat
      then match r !! (cidx - 1)%nat with
           | Some (VInt n) => VInt n
           | _ => VInt 0
           end
      else VInt 0
  | None => VInt 0
  end.

(** [update_grafik_sheet(wb)]: the table of the sheet "Grafik" is rebuilt
    from the last 30 data rows of the sheet "Rekap". *)
Definition update_grafik_sheet (wb : Workbook) : Workbook :=
  let ws_rekap := Rekap wb in
  let hmap := header_map ws_rekap in
  let last30 := last_n 30 (body_of (iter_rows ws_rekap)) in
  let table :=
    map VStr ("Tanggal" :: REKAP_ORDER)
    :: map (λ r, default VNone (r !! 0%nat)
                 :: map (grafik_count hmap r) REKAP_ORDER) last30 in
  mkWorkbook ws_rekap (Some table).

(** What [csv.writer] writes for one value. *)
Definition csv_field (v : value) : string :=
  match v with
  | VNone => ""
  | VStr s => s
  | VInt n => PyStr.str_int n
  end.

(** [open(REKAP_FILE_CSV, "a")] and [writerow(row)]. *)
Definition csv_append (d : Disk) (row : list value) : Disk :=
  mkDisk (xlsx d) (Some (default [] (csv d) ++ [map csv_field row])).

(** Lines 318-321: the row of one recap. *)
Definition rekap_row (today : Clock.date) (counters : gmap string Z)
    (jam_map : option (gmap string (list string))) : list value :=
  let tanggal_str := Clock.strftime_dmY today in
  let jam_map :=
    match jam_map with
    | Some j => if bool_decide (j = ∅)
                then list_to_map (map (λ n, (n, [])) REKAP_ORDER) else j
    | None => list_to_map (map (λ n, (n, [])) REKAP_ORDER)
    end in
  let jam_joined :=
    map (λ name, PyStr.join ";" (default [] (jam_map !! name))) REKAP_ORDER in
  [VStr tanggal_str]
  ++ map (λ name, VInt (default 0 (counters !! name))) REKAP_ORDER
  ++ map VStr jam_joined.

(** [any(v > 0 for v in row[1:1+len(REKAP_ORDER)])]. *)
Definition any_down (row : list value) : bool :=
  existsb (λ v, match v with VInt n => 0 <? n | _ => false end)
          (take (length REKAP_ORDER) (drop 1 row)).

(** Lines 352 and 373: [headers.index(x) if x in headers else None]. *)
Fixpoint index_of {A} `{EqDecision A} (x : A) (xs : list A) : option nat :=
  match xs with
  | [] => None
  | y :: rest => if decide (y = x) then Some 0%nat else S <$> index_of x rest
  end.

(** The empty series returned when there is no data row. *)
Definition no_data : list string * gmap string (list Z) :=
  ([], list_to_map (map (λ n, (n, [])) REKAP_ORDER)).

(** Lines 356-363 and 377-384: one value per row is appended to the series
    of every target. *)
Definition collect {R} (val : R → string → Z) (last : list R)
    : gmap string (list Z) :=
  foldl (λ data r,
           foldl (λ data name, alter (λ l, l ++ [val r name]) name data)
                 data REKAP_ORDER)
        (list_to_map (map (λ n, (n, [])) REKAP_ORDER)) last.

(** Lines 359-362. *)
Definition xlsx_val (headers : list value) (r : list value) (name : string)
    : Z :=
  match index_of (VStr ("Down " +:+ name)) headers with
  | Some i =>
      if bool_decide (i < length r)%nat
      then match r !! i with Some (VInt n) => n | _ => 0 end
      else 0
  | None => 0
  end.

(** Lines 380-384; an index past the end of the row or a field that is
    not an integer literal raises, and the handler appends 0. *)
Definition csv_val (headers : list string) (r : list string) (name : string)
    : Z :=
  match index_of ("Down " +:+ name) headers with
  | Some i =>
      match r !! i with
      | Some field => default 0 (PyStr.int_of_str field)
      | None => 0
      end
  | None => 0
  end.

(** Lines 346-364, after the workbook was loaded. *)
Definition read_xlsx (wb : Workbook) : list string * gmap string (list Z) :=
  let rows := iter_rows (Rekap wb) in
  if bool_decide (length rows ≤ 1)%nat then no_data
  else
    let headers := default [] (rows !! 0%nat) in
    let last := last_n 7 (drop 1 rows) in
    (map (λ r, str_value (default VNone (r !! 0%nat))) last,
     collect (xlsx_val headers) last).

(** Lines 367-386; [None] is the [IndexError] of [r[0]] on an empty
    record. *)
Definition read_csv (file : option (list (list string)))
    : option (list string * gmap string (list Z)) :=
  match file with
  | Some rows =>
      if bool_decide (length rows ≤ 1)%nat then Some no_data
      else
        let headers := default [] (rows !! 0%nat) in
        let last := last_n 7 (drop 1 rows) in
        dates ← mapM (λ r : list string, r !! 0%nat) last;
        Some (dates, collect (csv_val headers) last)
  | None => Some no_data
  end.

(** The first seven header cells of a report, legacy or current: the
    date, then the count of every target. *)
Definition count_header : list string :=
  "Tanggal" :: map (λ n, "Down " +:+ n) REKAP_ORDER.


(** The rows of the report in use: the used rows of the sheet "Rekap",
    or the records of the CSV file. *)
Definition table (EXCEL_AVAILABLE : bool) (d : Disk) : list (list value) :=
  if EXCEL_AVAILABLE then
    match xlsx d with
    | Some (Book wb) => used_rows (Rekap wb)
    | _ => []
    end
  else map (map VStr) (default [] (csv d)).

(** A recap row as it is found in the report in use. *)
Definition stored (EXCEL_AVAILABLE : bool) (row : list value) : list value :=
  if EXCEL_AVAILABLE then row else map (λ v, VStr (csv_field v)) row.

Section Backend.
(** Whether openpyxl could be imported. *)
Variable EXCEL_AVAILABLE : bool.

(** [ensure_workbook(REKAP_FILE)]. *)
Definition ensure_workbook (d : Disk) : Disk * mode :=
  if EXCEL_AVAILABLE then
    let fresh := (mkDisk (Some (Book new_workbook)) (csv d), Mxlsx) in
    match xlsx d with
    | Some (Book wb) =>
        let ws := Rekap wb in
        if bool_decide (1 ≤ max_row ws)%nat
           && bool_decide (cell_value ws 1 1 = VStr "Tanggal")
        then
          match migrate_header ws with
          | Some ws' =>
              (mkDisk (Some (Book (mkWorkbook ws' (Grafik wb)))) (csv d), Mxlsx)
          | None => (d, Mxlsx)
          end
        else fresh
    | Some Corrupt => fresh
    | None => fresh
    end
  else
    match csv d with
    | None => (mkDisk (xlsx d) (Some [full_header]), Mcsv)
    | Some _ => (d, Mcsv)
    end.

(** [write_rekap(today, counters, jam_map)]. *)
Definition write_rekap (today : Clock.date) (counters : gmap string Z)
    (jam_map : option (gmap string (list string))) (d : Disk) : Disk :=
  let '(d, mode) := ensure_workbook d in
  let row := rekap_row today counters jam_map in
  match mode with
  | Mxlsx =>
      match xlsx d with
      | Some (Book wb) =>
          let wb := mkWorkbook (append (Rekap wb) row) (Grafik wb) in
          let wb := if any_down row then update_grafik_sheet wb else wb in
          mkDisk (Some (Book wb)) (csv d)
      | _ => csv_append d row
      end
  | Mcsv => csv_append d row
  end.

(** [read_last_7_days()]; [None] is an exception that leaves the
    function. *)
Definition read_last_7_days (d : Disk)
    : option (list string * gmap string (list Z)) :=
  match (if EXCEL_AVAILABLE then xlsx d else None) with
  | Some (Book wb) => Some (read_xlsx wb)
  | _ => read_csv (csv d)
  end.

End Backend.

(** The sheet "Grafik" of the report workbook, when there is one. *)
Definition grafik_sheet (d : Disk) : option sheet :=
  match xlsx d with
  | Some (Book wb) => Grafik wb
  | _ => None
  end.

(** [_parse_first_down_minutes(jam_str)] (lines 230-241): the first stamp
    of a joined [HH:MM;HH:MM;...] text in minutes, 0 when there is none or
    it does not parse. *)
Definition parse_first_down_minutes (jam_str : option string) : Z :=
  match jam_str with
  | None => 0
  | Some s =>
      if bool_decide (s = "") then 0
      else
        let parts :=
          filter (λ p, p ≠ "") (map PyStr.strip (PyStr.split ";" s)) in
        match parts with
        | [] => 0
        | first :: _ =>
            match PyStr.split ":" first with
            | [h; m] =>
                match PyStr.int_of_str h, PyStr.int_of_str m with
                | Some h, Some m => h * 60 + m
                | _, _ => 0
                end
            | _ => 0
            end
        end
  end.

End Store.

(** * Incident tracker, recap scheduler and manual flush
      ([MonitorApp], lines 510-514 and 576-678;
       [HeadlessPingMonitor], lines 725-789)

    Both classes keep the same five attributes and run the same update;
    the widgets and pop-ups of [MonitorApp] are not modelled. A missing
    dictionary key ([KeyError]) is [None]. *)

Module Monitor.

Import Config Clock.

Record State := mkState {
  last_status : gmap string string;
  incident_open : gmap string bool;
  down_counter : gmap string Z;
  down_times : gmap string (list string);
  last_rekap_day : option date }.

(** [{t["name"]: v for t in TARGETS}]. *)
Definition per_target {A} (v : A) : gmap string A :=
  list_to_map (map (λ t : string * string, (t.1, v)) TARGETS).

(** The attributes set by [__init__]. *)
Definition init : State :=
  mkState (per_target "INIT") (per_target false) (per_target 0)
          (per_target []) None.

(** Lines 776-786 (654-672 in the window): the update for one target. *)
Definition track (results : gmap string string) (now : datetime)
    (name : string) (s : State) : option State :=
  let st := default "DOWN" (results !! name) in
  before ← last_status s !! name;
  let s := mkState (<[name := st]> (last_status s)) (incident_open s)
                   (down_counter s) (down_times s) (last_rekap_day s) in
  s ← (if bool_decide (before ≠ "DOWN") && bool_decide (st = "DOWN")
       then
         opened ← incident_open s !! name;
         if negb opened then
           count ← down_counter s !! name;
           times ← down_times s !! name;
           Some (mkState (last_status s)
                         (<[name := true]> (incident_open s))
                         (<[name := count + 1]> (down_counter s))
                         (<[name := times ++ [strftime_HM now]]> (down_times s))
                         (last_rekap_day s))
         else Some s
       else Some s);
  opened ← incident_open s !! name;
  if opened && bool_decide (st ≠ "DOWN")
  then Some (mkState (last_status s) (<[name := false]> (incident_open s))
                     (down_counter s) (down_times s) (last_rekap_day s))
  else Some s.

(** The loop over the targets in one tick. *)
Definition track_all (results : gmap string string) (now : datetime)
    (s : State) : option State :=
  foldl (λ acc name, s ← acc; track results now name s) (Some s) REKAP_ORDER.

(** Lines 757-759 (595-597 and 579-581 in the window):
    [for k in self.down_counter: ...]. *)
Definition reset_counters (s : State) : State :=
  let '(counter, times) :=
    map_fold (λ k _ '(counter, times), (<[k := 0]> counter, <[k := []]> times))
             (down_counter s, down_times s) (down_counter s) in
  mkState (last_status s) (incident_open s) counter times (last_rekap_day s).

(** Lines 749-754: whether [now] is a recap boundary. *)
Definition need (now : datetime) : bool :=
  let wd := weekday now in
  if (0 <=? wd) && (wd <=? 4) && (hour now =? 15) && (minute now =? 30)
  then true
  else if (wd =? 5) && (hour now =? 13) && (minute now =? 30)
  then true
  else false.

Section Backend.
Variable EXCEL_AVAILABLE : bool.

(** [schedule_rekap_if_needed(now)]. *)
Definition schedule_rekap_if_needed (now : datetime)
    (sd : State * Store.Disk) : State * Store.Disk :=
  let '(s, d) := sd in
  if need now && bool_decide (last_rekap_day s ≠ Some (date_of now))
  then
    let d := Store.write_rekap EXCEL_AVAILABLE (date_of now)
               (down_counter s) (Some (down_times s)) d in
    let s := reset_counters s in
    (mkState (last_status s) (incident_open s) (down_counter s)
             (down_times s) (Some (date_of now)), d)
  else (s, d).

(** [MonitorApp.rekap_now()], with [now = datetime.now()]. *)
Definition rekap_now (now : datetime)
    (sd : State * Store.Disk) : State * Store.Disk :=
  let '(s, d) := sd in
  let d := Store.write_rekap EXCEL_AVAILABLE (date_of now)
             (down_counter s) (Some (down_times s)) d in
  let s := reset_counters s in
  (mkState (last_status s) (incident_open s) (down_counter s)
           (down_times s) (Some (date_of now)), d).

(** One firing of the driving loop: the results of the probes are folded
    into the state, then the scheduler is asked. *)
Definition tick (results : gmap string string) (now : datetime)
    (sd : State * Store.Disk) : option (State * Store.Disk) :=
  s ← track_all results now sd.1;
  Some (schedule_rekap_if_needed now (s, sd.2)).

(** What can happen to the state: the tracker update of a tick, the
    scheduler call of a tick, a press on "Rekap Now". *)
Inductive event :=
| Observe (results : gmap string string) (now : datetime)
| Schedule (now : datetime)
| Manual (now : datetime).

Definition step (e : event) (sd : State * Store.Disk)
    : option (State * Store.Disk) :=
  match e with
  | Observe results now => s ← track_all results now sd.1; Some (s, sd.2)
  | Schedule now => Some (schedule_rekap_if_needed now sd)
  | Manual now => Some (rekap_now now sd)
  end.

Definition exec (es : list event) (sd : State * Store.Disk)
    : option (State * Store.Disk) :=
  foldl (λ acc e, sd ← acc; step e sd) (Some sd) es.

End Backend.

(** ** One target seen on its own *)

Record TargetState := mkTarget {
  lastStatus : string;
  incidentOpen : bool;
  downCount : Z;
  downTimestamps : list string }.

(** The four entries of one target. *)
Definition target (name : string) (s : State) : option TargetState :=
  st ← last_status s !! name;
  opened ← incident_open s !! name;
  count ← down_counter s !! name;
  times ← down_times s !! name;
  Some (mkTarget st opened count times).

(** What [track] does to the four entries of the target it is called
    for, given the observed status and the stamp of the tick. *)
Definition transition (t : TargetState) (st stamp : string) : TargetState :=
  let t :=
    if bool_decide (lastStatus t ≠ "DOWN") && bool_decide (st = "DOWN")
       && negb (incidentOpen t)
    then mkTarget st true (downCount t + 1) (downTimestamps t ++ [stamp])
    else mkTarget st (incidentOpen t) (downCount t) (downTimestamps t) in
  if incidentOpen t && bool_decide (st ≠ "DOWN")
  then mkTarget (lastStatus t) false (downCount t) (downTimestamps t)
  else t.

(** A sequence of observations applied to one target. *)
Definition replay (t : TargetState) (obs : list (string * string))
    : TargetState :=
  foldl (λ t o, transition t o.1 o.2) t obs.

(** Every target of [REKAP_ORDER] has its four entries. *)
Definition tracked (s : State) : Prop :=
  ∀ name, name ∈ REKAP_ORDER → is_Some (target name s).

(** The incident is open exactly when the last status is ["DOWN"]. *)
Definition coherent (t : TargetState) : Prop :=
  incidentOpen t = bool_decide (lastStatus t = "DOWN").

(** Count and stamps agree. *)
Definition balanced (t : TargetState) : Prop :=
  downCount t = Z.of_nat (length (downTimestamps t)).

(** Every target has its entries, and they are balanced. *)
Definition sound (s : State) : Prop :=
  Forall (λ name, ∃ t, target name s = Some t ∧ balanced t) REKAP_ORDER.


(** The status one tick observes for a target ([results.get(name, "DOWN")])
    and the time it stamps. *)
Definition observation (name : string)
    (t : gmap string string * datetime) : string * string :=
  (default "DOWN" (t.1 !! name), strftime_HM t.2).

(** The tracker fed with a sequence of probe results. *)
Definition feed (ticks : list (gmap string string * datetime)) (s : State)
    : option State :=
  foldl (λ acc t, s ← acc; track_all t.1 t.2 s) (Some s) ticks.

(** The stamps of the observations that start a maximal run of ["DOWN"];
    [prev] tells whether the observation before was ["DOWN"]. *)
Fixpoint run_starts (prev : bool) (obs : list (string * string))
    : list string :=
  match obs with
  | [] => []
  | (st, stamp) :: rest =>
      if bool_decide (st = "DOWN")
      then (if prev then [] else [stamp]) ++ run_starts true rest
      else run_starts false rest
  end.

(** [HeadlessPingMonitor.run] (lines 769-789): one tick per iteration,
    given the probe results and the clock reading of each iteration. *)
Definition run (EXCEL_AVAILABLE : bool)
    (ticks : list (gmap string string * datetime))
    (sd : State * Store.Disk) : option (State * Store.Disk) :=
  foldl (λ acc t, sd ← acc; tick EXCEL_AVAILABLE t.1 t.2 sd) (Some sd) ticks.

(** The probe results among a sequence of events, in order. *)
Definition observed (es : list event)
    : list (gmap string string * datetime) :=
  omap (λ e, match e with
             | Observe results now => Some (results, now)
             | _ => None
             end) es.

(** The count a recap row holds for the target at place [k] of
    [REKAP_ORDER], and the sum of these counts over several rows. *)
Definition count_at (k : nat) (row : list Store.value) : Z :=
  match row !! S k with
  | Some (Store.VInt c) => c
  | _ => 0
  end.

Definition written (k : nat) (rows : list (list Store.value)) : Z :=
  foldr (λ row acc, count_at k row + acc) 0 rows.

(** Every target has its entries, and they are coherent. *)
Definition steady (s : State) : Prop :=
  Forall (λ name, ∃ t, target name s = Some t ∧ coherent t) REKAP_ORDER.

Section Results.
Variable platform_system : string.
Variable PING_COUNT : string.
Variable subprocess_run : list string → Probe.outcome Probe.CompletedProcess.

(** [_get_results()] with live probes (lines 738-746; 645-651 in the
    window): every target gets the status of its probe, or ["DOWN"] when
    the probe raised. The order in which the probes complete does not show
    in the dictionary. *)
Definition get_results : gmap string string :=
  list_to_map
    (map (λ t : string * string,
            (t.1,
             match Probe.check_target platform_system PING_COUNT
                     subprocess_run t.2 with
             | Probe.Return st => st
             | Probe.Raise _ => "DOWN"
             end)) TARGETS).

End Results.

End Monitor.



(** * Verification *)

(** ** Strings *)

Lemma prefix_app_l (a x h : string) :
  String.prefix (a +:+ x) h = true → String.prefix a h = true.
Proof.
  revert h. induction a as [|c a IH]; intros h; [by destruct h|].
  destruct h as [|c' h]; simpl; [done|].
  destruct (Ascii.ascii_dec c c'); [apply IH|done].
Qed.

Lemma contains_nil (n : string) :
  PyStr.contains n "" = String.prefix n "" || false.
Proof. done. Qed.

Lemma contains_cons (n : string) (c : ascii) (h : string) :
  PyStr.contains n (String c h)
  = String.prefix n (String c h) || PyStr.contains n h.
Proof. done. Qed.

Lemma contains_app_l (a x h : string) :
  PyStr.contains (a +:+ x) h = true → PyStr.contains a h = true.
Proof.
  induction h as [|c h IH].
  - rewrite !contains_nil, !orb_false_r. apply prefix_app_l.
  - rewrite !contains_cons.
    intros [H|H]%orb_true_iff; apply orb_true_iff.
    + left. by eapply prefix_app_l.
    + right. by apply IH.
Qed.

Lemma contains_tail (c : ascii) (a h : string) :
  PyStr.contains (String c a) h = true → PyStr.contains a h = true.
Proof.
  induction h as [|c' h IH]; [done|].
  rewrite !contains_cons.
  intros [H|H]%orb_true_iff; apply orb_true_iff; right.
  - simpl in H. destruct (Ascii.ascii_dec c c'); [|done].
    destruct h; [rewrite contains_nil|rewrite contains_cons]; by rewrite H.
  - by apply IH.
Qed.

Lemma contains_app_r (x a h : string) :
  PyStr.contains (x +:+ a) h = true → PyStr.contains a h = true.
Proof.
  induction x as [|c x IH]; [done|].
  intros H. by apply IH, (contains_tail c).
Qed.

Lemma contains_here (n post : string) : PyStr.contains n (n +:+ post) = true.
Proof.
  assert (String.prefix n (n +:+ post) = true) as H.
  { induction n as [|c n IH]; simpl; [by destruct post|].
    by destruct (Ascii.ascii_dec c c). }
  destruct (n +:+ post); [rewrite contains_nil|rewrite contains_cons];
    by rewrite H.
Qed.

Lemma contains_later (n pre h : string) :
  PyStr.contains n h = true → PyStr.contains n (pre +:+ h) = true.
Proof.
  intros H. induction pre as [|c pre IH]; [done|].
  change (String c pre +:+ h) with (String c (pre +:+ h)).
  rewrite contains_cons, IH. apply orb_true_r.
Qed.

Lemma lower_app (a b : string) :
  PyStr.lower (a +:+ b) = PyStr.lower a +:+ PyStr.lower b.
Proof. induction a as [|c a IH]; simpl; [done|]. by rewrite IH. Qed.

(** ** Decimal numerals: [int(str(n)) == n] *)

Lemma digit_not_special (c : ascii) :
  PyStr.is_digit c = true →
  PyStr.is_space c = false ∧ Ascii.eqb c "_" = false
  ∧ Ascii.eqb c "-" = false ∧ Ascii.eqb c "+" = false.
Proof.
  destruct c as [[] [] [] [] [] [] [] []]; vm_compute; intros H;
    try discriminate H; done.
Qed.

Lemma string_of_uint_digits (d : Decimal.uint) :
  PyStr.all_chars PyStr.is_digit (NilEmpty.string_of_uint d) = true.
Proof. induction d; simpl; try done. Qed.

Lemma digits_lstrip (s : string) :
  PyStr.all_chars PyStr.is_digit s = true → PyStr.lstrip s = s.
Proof.
  destruct s as [|c s]; [done|]. simpl. intros [Hc _]%andb_true_iff.
  by destruct (digit_not_special c Hc) as (-> & _).
Qed.

Lemma digits_rstrip (s : string) :
  PyStr.all_chars PyStr.is_digit s = true → PyStr.rstrip s = s.
Proof.
  induction s as [|c s IH]; [done|]. simpl. intros [Hc Hs]%andb_true_iff.
  rewrite IH by done. destruct (digit_not_special c Hc) as (-> & _).
  by destruct s.
Qed.

Lemma digits_grouped (s : string) :
  PyStr.all_chars PyStr.is_digit s = true → PyStr.grouped true s = true.
Proof.
  induction s as [|c s IH]; [done|]. simpl. intros [Hc Hs]%andb_true_iff.
  rewrite Hc. by apply IH.
Qed.

Lemma digits_drop_underscores (s : string) :
  PyStr.all_chars PyStr.is_digit s = true → PyStr.drop_underscores s = s.
Proof.
  induction s as [|c s IH]; [done|]. simpl. intros [Hc Hs]%andb_true_iff.
  destruct (digit_not_special c Hc) as (_ & -> & _). by rewrite IH.
Qed.

Lemma digits_value_uint (d : Decimal.uint) :
  d ≠ Decimal.Nil →
  PyStr.digits_value (NilEmpty.string_of_uint d) = Some (Z.of_uint d).
Proof.
  intros Hd. pose proof (string_of_uint_digits d) as Hall.
  unfold PyStr.digits_value.
  assert (PyStr.grouped false (NilEmpty.string_of_uint d) = true) as ->.
  { destruct (NilEmpty.string_of_uint d) as [|c s] eqn:E.
    - by destruct d.
    - simpl in *. apply andb_true_iff in Hall as [-> Hs].
      by apply digits_grouped. }
  rewrite digits_drop_underscores by done.
  replace (NilEmpty.string_of_uint d) with (NilZero.string_of_uint d)
    by (by destruct d).
  by rewrite NilZero.usu.
Qed.




(** ** Configuration *)

(** C10. With the GUI toolkit available, synthetic probing is on exactly
    when [USE_DUMMY] is ["1"] in the environment, so live probing is the
    default; without the toolkit, live probing is on exactly when
    [FORCE_REAL] is ["1"], so synthetic probing is the default. *)
Theorem USE_DUMMY_default (environ : gmap string string) :
  (Config.USE_DUMMY true environ = true ↔ environ !! "USE_DUMMY" = Some "1")
  ∧ (Config.USE_DUMMY false environ = false
     ↔ environ !! "FORCE_REAL" = Some "1")
  ∧ Config.USE_DUMMY true ∅ = false
  ∧ Config.USE_DUMMY false ∅ = true.
Proof.
  unfold Config.USE_DUMMY, Config.environ_get. repeat split.
  - apply bool_decide_eq_true_1.
  - apply bool_decide_eq_true_2.
  - intros H. apply bool_decide_eq_false in H.
    destruct (decide (environ !! "FORCE_REAL" = Some "1")); [done|].
    by destruct H.
  - intros H. apply bool_decide_eq_false. by intros [].
Qed.

(** ** Probe *)

Section ProbeFacts.
Import Probe.
Variables (platform_system PING_COUNT : string).
Variable subprocess_run : list string → outcome CompletedProcess.

Local Abbreviation argv host :=
  ["ping"; ping_param platform_system; PING_COUNT; host].

Lemma check_target_completed host p :
  subprocess_run (argv host) = Return p →
  check_target platform_system PING_COUNT subprocess_run host
  = Return (classify p).
Proof.
  intros H. unfold check_target, check_target_body. by rewrite H.
Qed.

Lemma check_target_raised host e :
  subprocess_run (argv host) = Raise e →
  check_target platform_system PING_COUNT subprocess_run host = Return "DOWN".
Proof.
  intros H. unfold check_target, check_target_body. by rewrite H.
Qed.

Lemma classify_failure p : failure (Return p) → classify p = "DOWN".
Proof.
  unfold failure, classify. cbv zeta.
  set (out := PyStr.lower _).
  intros [Hrc | [Hun | [Hlost Hloss]]].
  - by rewrite (bool_decide_eq_true_2 _ Hrc).
  - rewrite Hun. by rewrite orb_true_r.
  - destruct (bool_decide _ || _); [done|].
    rewrite Hlost, Hloss.
    destruct (PyStr.contains "lost = 0" out) eqn:H0.
    { apply (contains_app_l "lost =" " 0") in H0. congruence. }
    destruct (PyStr.contains "0% packet loss" out) eqn:H1; [|done].
    apply (contains_app_r "0% " "packet loss") in H1. congruence.
Qed.

(** C7. Whatever [subprocess.run] does for the ping of [host] (it returns
    or it raises), [check_target] returns a status and raises nothing; when
    the probe failed (an exception such as a timeout or a transport error,
    an exit status other than zero, an unreachable target, or output
    without loss statistics) that status is ["DOWN"]. *)
Theorem check_target_never_raises (host : string) :
  (∃ status, check_target platform_system PING_COUNT subprocess_run host
             = Return status)
  ∧ (failure (subprocess_run (argv host)) →
     check_target platform_system PING_COUNT subprocess_run host
     = Return "DOWN").
Proof.
  destruct (subprocess_run (argv host)) as [p|e] eqn:Hrun.
  - rewrite (check_target_completed _ _ Hrun). split; [by eexists|].
    intros Hf. by rewrite classify_failure.
  - rewrite (check_target_raised _ _ Hrun). split; [by eexists|done].
Qed.

End ProbeFacts.

Lemma check_target_never_raises_witness :
  (∃ status, Probe.check_target "Linux" "2" (λ _, Probe.Raise Probe.TimeoutExpired)
               "192.168.8.8" = Probe.Return status)
  ∧ Probe.check_target "Linux" "2" (λ _, Probe.Raise Probe.TimeoutExpired)
      "192.168.8.8" = Probe.Return "DOWN".
Proof.
  pose proof (check_target_never_raises "Linux" "2"
                (λ _, Probe.Raise Probe.TimeoutExpired) "192.168.8.8") as [H1 H2].
  split; [exact H1|]. apply H2. exact I.
Defined.

(** C2 (the code departs from the claim). iputils [ping -c 2] with one of
    the two echoes lost exits with status 0 and reports "50% packet loss";
    ["0% packet loss"] occurs inside that text, so the test of line 183
    succeeds and [check_target] answers ["UP"], although the loss is
    partial. The Windows report of the same situation is classified
    ["WARNING"]. *)
Theorem check_target_partial_loss_linux :
  Probe.check_target "Linux" "2"
    (λ _, Probe.Return {| Probe.returncode := 0;
                          Probe.stdout := Some Probe.linux_one_of_two_lost |})
    "192.168.8.8" = Probe.Return "UP"
  ∧ Probe.check_target "Windows" "2"
    (λ _, Probe.Return {| Probe.returncode := 0;
                          Probe.stdout := Some Probe.windows_one_of_two_lost |})
    "192.168.8.8" = Probe.Return "WARNING".
Proof. split; vm_compute; reflexivity. Qed.

(** Any report that mentions a loss percentage ending in the digit 0
    (10%, 20%, ..., 50%, ...) in the iputils wording is taken for no loss. *)
Lemma classify_loss_ending_in_0 (pre post : string) :
  PyStr.contains "unreachable"
    (PyStr.lower (pre +:+ "0% packet loss" +:+ post)) = false →
  Probe.classify {| Probe.returncode := 0;
                    Probe.stdout := Some (pre +:+ "0% packet loss" +:+ post) |}
  = "UP".
Proof.
  intros Hun. unfold Probe.classify.
  change (default "" (Probe.stdout _)) with (pre +:+ "0% packet loss" +:+ post).
  rewrite Hun. rewrite bool_decide_eq_false_2 by (intros H; by apply H).
  cbn [orb].
  assert (PyStr.contains "0% packet loss"
            (PyStr.lower (pre +:+ "0% packet loss" +:+ post)) = true) as ->.
  { rewrite !lower_app. apply contains_later.
    change (PyStr.lower "0% packet loss") with "0% packet loss".
    apply contains_here. }
  by rewrite orb_true_r.
Qed.

(** ** Incident tracker *)

(** Case analysis over the six targets: [H : name ∈ REKAP_ORDER] is
    replaced by one goal per target, each closed by [tac]. *)
Ltac each_target H tac :=
  unfold Config.REKAP_ORDER in H;
  repeat (apply elem_of_cons in H as [->|H]; [tac|]);
  by apply elem_of_nil in H.

Section TrackerFacts.
Import Config Clock Monitor.

Lemma REKAP_ORDER_NoDup : NoDup REKAP_ORDER.
Proof. compute_done. Qed.

(** The window iterates over the names of [TARGETS], the CLI over
    [REKAP_ORDER]: the same names in the same order. *)
Lemma TARGETS_names : map fst TARGETS = REKAP_ORDER.
Proof. reflexivity. Qed.

Lemma target_Some name s t :
  target name s = Some t ↔
  last_status s !! name = Some (lastStatus t)
  ∧ incident_open s !! name = Some (incidentOpen t)
  ∧ down_counter s !! name = Some (downCount t)
  ∧ down_times s !! name = Some (downTimestamps t).
Proof.
  unfold target. split.
  - intros H. destruct (last_status s !! name), (incident_open s !! name),
      (down_counter s !! name), (down_times s !! name); simplify_eq/=; done.
  - destruct t. intros (-> & -> & -> & ->). done.
Qed.

(** [track] acts on the target it is called for as [transition] does and
    leaves the other targets and the recap date alone. *)
Lemma track_target results now name s t :
  target name s = Some t →
  ∃ s', track results now name s = Some s'
        ∧ target name s'
          = Some (transition t (default "DOWN" (results !! name))
                             (strftime_HM now))
        ∧ (∀ other, other ≠ name → target other s' = target other s)
        ∧ last_rekap_day s' = last_rekap_day s.
Proof.
  intros (Hst & Hop & Hc & Ht)%target_Some. destruct t as [st0 op c ts].
  simpl in *. unfold track, transition. rewrite Hst. simpl.
  set (st := default "DOWN" (results !! name)).
  destruct (bool_decide (st0 ≠ "DOWN") && bool_decide (st = "DOWN")) eqn:Hopen;
    simpl.
  - rewrite Hop. simpl. destruct op; simpl.
    + rewrite Hop. simpl.
      destruct (bool_decide (st ≠ "DOWN")) eqn:Hne; simpl.
      all: eexists; split; [done|]; split;
        [unfold target; simpl; by rewrite ?lookup_insert_eq, ?Hop, ?Hc, ?Ht|].
      all: split; [|done]; intros other Hother; unfold target; simpl;
        by rewrite ?lookup_insert_ne by done.
    + rewrite Hc, Ht. simpl. rewrite lookup_insert_eq. simpl.
      destruct (bool_decide (st ≠ "DOWN")) eqn:Hne; simpl.
      all: eexists; split; [done|]; split;
        [unfold target; simpl; by rewrite ?lookup_insert_eq|].
      all: split; [|done]; intros other Hother; unfold target; simpl;
        by rewrite ?lookup_insert_ne by done.
  - rewrite Hop. simpl.
    destruct (op && bool_decide (st ≠ "DOWN")) eqn:Hcl; simpl.
    all: eexists; split; [done|]; split;
      [unfold target; simpl; by rewrite ?lookup_insert_eq, ?Hop, ?Hc, ?Ht|].
    all: split; [|done]; intros other Hother; unfold target; simpl;
      by rewrite ?lookup_insert_ne by done.
Qed.

Lemma track_names results now (l : list string) s :
  NoDup l → (∀ n, n ∈ l → is_Some (target n s)) →
  ∃ s', foldl (λ acc name, s ← acc; track results now name s) (Some s) l
        = Some s'
        ∧ (∀ n t, n ∈ l → target n s = Some t →
           target n s' = Some (transition t (default "DOWN" (results !! n))
                                          (strftime_HM now)))
        ∧ (∀ n, n ∉ l → target n s' = target n s)
        ∧ last_rekap_day s' = last_rekap_day s.
Proof.
  intros Hnd. revert s. induction Hnd as [|a l Ha Hnd IH]; intros s Hall.
  { exists s. split; [done|]. split; [|done].
    intros n t Hn. by apply elem_of_nil in Hn. }
  destruct (Hall a) as [ta Hta]; [by left|].
  destruct (track_target results now a s ta Hta) as (s1 & Hs1 & Ha1 & Hoth & Hd).
  destruct (IH s1) as (s' & Hs' & Hin & Hout & Hd').
  { intros n Hn. rewrite Hoth; [apply Hall; by right|]. by intros ->. }
  exists s'. simpl. rewrite Hs1. split; [done|]. split; [|split].
  - intros n t [->|Hn]%elem_of_cons Ht.
    + rewrite Hout by done. rewrite Ha1. congruence.
    + apply Hin; [done|]. rewrite Hoth; [done|]. by intros ->.
  - intros n Hn. apply not_elem_of_cons in Hn as [Hna Hnl].
    rewrite Hout by done. by apply Hoth.
  - congruence.
Qed.

Lemma track_all_target results now s :
  tracked s →
  ∃ s', track_all results now s = Some s'
        ∧ tracked s'
        ∧ (∀ n t, n ∈ REKAP_ORDER → target n s = Some t →
           target n s' = Some (transition t (default "DOWN" (results !! n))
                                          (strftime_HM now)))
        ∧ (∀ n, n ∉ REKAP_ORDER → target n s' = target n s)
        ∧ last_rekap_day s' = last_rekap_day s.
Proof.
  intros Htr.
  destruct (track_names results now REKAP_ORDER s REKAP_ORDER_NoDup Htr)
    as (s' & Hs' & Hin & Hout & Hd).
  exists s'. repeat split; try done.
  intros n Hn. destruct (Htr n Hn) as [t Ht]. rewrite (Hin n t Hn Ht). by eexists.
Qed.

Lemma feed_nil s : feed [] s = Some s.
Proof. done. Qed.

Lemma feed_cons tk ticks s :
  feed (tk :: ticks) s = s' ← track_all tk.1 tk.2 s; feed ticks s'.
Proof.
  unfold feed. simpl. destruct (track_all tk.1 tk.2 s) as [s'|]; [done|].
  simpl. induction ticks as [|? ? IH]; [done|]. simpl. apply IH.
Qed.

Lemma feed_app ticks1 ticks2 s :
  feed (ticks1 ++ ticks2) s = s' ← feed ticks1 s; feed ticks2 s'.
Proof.
  revert s. induction ticks1 as [|tk ticks1 IH]; intros s; [done|].
  simpl. rewrite !feed_cons. destruct (track_all _ _ s); simpl; [apply IH|done].
Qed.

(** Feeding ticks to a tracked state never fails, and each target sees
    its own observations replayed. *)
Lemma feed_target ticks s :
  tracked s →
  ∃ s', feed ticks s = Some s'
        ∧ tracked s'
        ∧ (∀ n t, n ∈ REKAP_ORDER → target n s = Some t →
           target n s' = Some (replay t (map (observation n) ticks)))
        ∧ last_rekap_day s' = last_rekap_day s.
Proof.
  revert s. induction ticks as [|tk ticks IH]; intros s Htr.
  { exists s. by rewrite feed_nil. }
  destruct (track_all_target tk.1 tk.2 s Htr) as (s1 & Hs1 & Htr1 & Hin & _ & Hd).
  destruct (IH s1 Htr1) as (s' & Hs' & Htr' & Hin' & Hd').
  exists s'. rewrite feed_cons, Hs1. simpl. repeat split; try done.
  - intros n t Hn Ht. rewrite (Hin' n _ Hn (Hin n t Hn Ht)). done.
  - congruence.
Qed.

Lemma transition_coherent t st stamp :
  coherent t → coherent (transition t st stamp).
Proof.
  unfold coherent, transition. destruct t as [st0 op c ts]. simpl. intros ->.
  repeat (case_bool_decide; simpl); congruence.
Qed.

Lemma transition_balanced t st stamp :
  balanced t → balanced (transition t st stamp).
Proof.
  unfold balanced, transition. destruct t as [st0 op c ts]. simpl. intros ->.
  repeat (case_bool_decide; simpl); destruct op; simpl;
    rewrite ?length_app; simpl; lia.
Qed.

Lemma replay_run_starts t obs :
  coherent t →
  coherent (replay t obs)
  ∧ downTimestamps (replay t obs)
    = downTimestamps t ++ run_starts (incidentOpen t) obs
  ∧ downCount (replay t obs)
    = downCount t + Z.of_nat (length (run_starts (incidentOpen t) obs)).
Proof.
  revert t. induction obs as [|[st stamp] obs IH]; intros t Hco.
  { simpl. rewrite app_nil_r. split; [done|]. split; [done|lia]. }
  pose proof (transition_coherent t st stamp Hco) as Hco'.
  destruct (IH _ Hco') as (H1 & H2 & H3).
  change (replay t ((st, stamp) :: obs))
    with (replay (transition t st stamp) obs).
  split; [done|]. rewrite H2, H3. clear IH H1 H2 H3 Hco'.
  unfold coherent in Hco. unfold transition. destruct t as [st0 op c ts].
  simpl in *. subst op.
  repeat (case_bool_decide; simpl); try congruence;
    rewrite <- ?app_assoc, ?length_app; simpl; split; try done; lia.
Qed.

Lemma init_target name :
  name ∈ REKAP_ORDER → target name init = Some (mkTarget "INIT" false 0 []).
Proof.
  intros H. each_target H ltac:(by vm_compute).
Qed.

Lemma init_tracked : tracked init.
Proof. intros n Hn. rewrite init_target by done. by eexists. Qed.

End TrackerFacts.

(** ** Counter reset *)

Section ResetFacts.
Import Config Clock Monitor.

Lemma reset_loop (counter0 : gmap string Z)
    (times0 : gmap string (list string)) (m : gmap string Z) :
  let r := map_fold (λ (k : string) (_ : Z)
                       '((counter, times) :
                           gmap string Z * gmap string (list string)),
                       (<[k := 0]> counter, <[k := []]> times))
                    (counter0, times0) m in
  ∀ k, r.1 !! k = (if m !! k is Some _ then Some 0 else counter0 !! k)
       ∧ r.2 !! k = (if m !! k is Some _ then Some [] else times0 !! k).
Proof.
  cbv zeta.
  apply (map_fold_weak_ind
           (λ r m, ∀ k, r.1 !! k = (if m !! k is Some _ then Some 0 else counter0 !! k)
                        ∧ r.2 !! k = (if m !! k is Some _ then Some [] else times0 !! k))).
  - intros k. by rewrite lookup_empty.
  - intros i x m' [c t] Hi IH k. simpl.
    destruct (decide (i = k)) as [->|Hne].
    + by rewrite !lookup_insert_eq.
    + rewrite !lookup_insert_ne by done. apply IH.
Qed.

Lemma reset_counters_frame s :
  last_status (reset_counters s) = last_status s
  ∧ incident_open (reset_counters s) = incident_open s
  ∧ last_rekap_day (reset_counters s) = last_rekap_day s.
Proof. unfold reset_counters. by destruct (map_fold _ _ _). Qed.

Lemma reset_counters_lookup s k :
  down_counter (reset_counters s) !! k
  = (if down_counter s !! k is Some _ then Some 0 else None)
  ∧ down_times (reset_counters s) !! k
    = (if down_counter s !! k is Some _ then Some [] else down_times s !! k).
Proof.
  pose proof (reset_loop (down_counter s) (down_times s) (down_counter s) k)
    as [H1 H2].
  unfold reset_counters. destruct (map_fold _ _ _) as [c t]. simpl in *.
  rewrite H1, H2. split; [|done]. by destruct (down_counter s !! k) eqn:E.
Qed.

(** The reset seen on one target. *)
Lemma reset_counters_target name s t :
  target name s = Some t →
  target name (reset_counters s)
  = Some (mkTarget (lastStatus t) (incidentOpen t) 0 []).
Proof.
  intros (Hst & Hop & Hc & Ht)%target_Some.
  destruct (reset_counters_frame s) as (Hf1 & Hf2 & _).
  destruct (reset_counters_lookup s name) as [Hl1 Hl2].
  unfold target. rewrite Hf1, Hf2, Hl1, Hl2, Hst, Hop, Hc. done.
Qed.

(** Setting the recap date does not touch any target. *)
Lemma target_with_date name s day :
  target name (mkState (last_status s) (incident_open s) (down_counter s)
                       (down_times s) day)
  = target name s.
Proof. done. Qed.

Section Flush.
Variable EXCEL_AVAILABLE : bool.

Lemma rekap_now_state now s d :
  (rekap_now EXCEL_AVAILABLE now (s, d)).1
  = mkState (last_status (reset_counters s)) (incident_open (reset_counters s))
            (down_counter (reset_counters s)) (down_times (reset_counters s))
            (Some (date_of now)).
Proof. done. Qed.

Lemma schedule_fires now s d :
  need now = true → last_rekap_day s ≠ Some (date_of now) →
  schedule_rekap_if_needed EXCEL_AVAILABLE now (s, d)
  = rekap_now EXCEL_AVAILABLE now (s, d).
Proof.
  intros Hn Hd. unfold schedule_rekap_if_needed, rekap_now.
  by rewrite Hn, (bool_decide_eq_true_2 _ Hd).
Qed.

Lemma schedule_idle now s d :
  need now = false ∨ last_rekap_day s = Some (date_of now) →
  schedule_rekap_if_needed EXCEL_AVAILABLE now (s, d) = (s, d).
Proof.
  intros [Hn|Hd]; unfold schedule_rekap_if_needed.
  - by rewrite Hn.
  - rewrite (bool_decide_eq_false_2 (last_rekap_day s ≠ _)) by (by intros []).
    by rewrite andb_false_r.
Qed.

Lemma sound_tracked s : sound s → tracked s.
Proof.
  intros Hs name Hn. apply (proj1 (Forall_forall _ _) Hs) in Hn as (t & Ht & _).
  by eexists.
Qed.

Lemma sound_flush now s d : sound s → sound (rekap_now EXCEL_AVAILABLE now (s, d)).1.
Proof.
  intros Hs. rewrite rekap_now_state. apply Forall_forall. intros name Hn.
  apply (proj1 (Forall_forall _ _) Hs) in Hn as (t & Ht & _).
  rewrite target_with_date, (reset_counters_target _ _ _ Ht).
  eexists. split; [done|]. done.
Qed.

Lemma sound_track_all results now s :
  sound s → ∃ s', track_all results now s = Some s' ∧ sound s'.
Proof.
  intros Hs.
  destruct (track_all_target results now s (sound_tracked _ Hs))
    as (s' & Hs' & _ & Hin & _).
  exists s'. split; [done|]. apply Forall_forall. intros name Hn.
  destruct (proj1 (Forall_forall _ _) Hs name Hn) as (t & Ht & Hb).
  rewrite (Hin name t Hn Ht). eexists. split; [done|].
  by apply transition_balanced.
Qed.

Lemma sound_step e s d :
  sound s → ∃ s' d', step EXCEL_AVAILABLE e (s, d) = Some (s', d') ∧ sound s'.
Proof.
  intros Hs. destruct e as [results now|now|now]; cbn [step fst snd].
  - destruct (sound_track_all results now s Hs) as (s' & -> & Hs').
    by exists s', d.
  - destruct (need now && bool_decide (last_rekap_day s ≠ Some (date_of now)))
      eqn:Hfire.
    + apply andb_true_iff in Hfire as [Hn Hd%bool_decide_eq_true].
      rewrite schedule_fires by done.
      pose proof (sound_flush now s d Hs) as Hf.
      destruct (rekap_now EXCEL_AVAILABLE now (s, d)) as [s' d'].
      by exists s', d'.
    + exists s, d. unfold schedule_rekap_if_needed. by rewrite Hfire.
  - pose proof (sound_flush now s d Hs) as Hf.
    destruct (rekap_now EXCEL_AVAILABLE now (s, d)) as [s' d'].
    by exists s', d'.
Qed.

Lemma sound_exec es s d :
  sound s → ∃ s' d', exec EXCEL_AVAILABLE es (s, d) = Some (s', d') ∧ sound s'.
Proof.
  revert s d. induction es as [|e es IH]; intros s d Hs.
  { by exists s, d. }
  destruct (sound_step e s d Hs) as (s1 & d1 & Hstep & Hs1).
  destruct (IH s1 d1 Hs1) as (s' & d' & Hex & Hs').
  exists s', d'. split; [|done]. unfold exec in *. simpl.
  by rewrite Hstep.
Qed.

(** A tick is the tracker update followed by the scheduler call. *)
Lemma tick_events results now sd :
  tick EXCEL_AVAILABLE results now sd
  = exec EXCEL_AVAILABLE [Observe results now; Schedule now] sd.
Proof.
  unfold tick, exec. destruct sd as [s d]. simpl.
  by destruct (track_all results now s).
Qed.

Lemma sound_init : sound init.
Proof.
  apply Forall_forall. intros name Hn. rewrite init_target by done.
  eexists. split; [done|]. done.
Qed.

(** C4. From the initial state, after any sequence of tracker updates,
    scheduler calls and manual flushes (so after every transition step and
    after every counter reset), every target still has its entries and its
    count of down episodes equals the number of its down stamps. *)
Theorem count_equals_stamps (es : list event) (d : Store.Disk) :
  ∃ s d', exec EXCEL_AVAILABLE es (init, d) = Some (s, d')
          ∧ Forall (λ name, ∃ t, target name s = Some t
                                 ∧ downCount t
                                   = Z.of_nat (length (downTimestamps t)))
                   REKAP_ORDER.
Proof. apply sound_exec, sound_init. Qed.

End Flush.
End ResetFacts.

(** ** Down episodes *)

Section EpisodeFacts.
Import Config Clock Monitor.

(** A run of ["DOWN"] observations, however long, has one start. *)
Lemma run_starts_down_run stamp (more : list (string * string)) :
  Forall (λ o, o.1 = "DOWN") more →
  run_starts false (("DOWN", stamp) :: more) = [stamp]
  ∧ run_starts true more = [].
Proof.
  intros H. assert (run_starts true more = []) as Hm.
  { induction H as [|[st sp] more Hst _ IH]; [done|].
    simpl in *. subst st. by rewrite bool_decide_eq_true_2. }
  split; [|done]. simpl. by rewrite Hm.
Qed.

Lemma run_starts_app prev obs1 obs2 :
  run_starts prev (obs1 ++ obs2)
  = run_starts prev obs1
    ++ run_starts (match last obs1 with
                   | Some o => bool_decide (o.1 = "DOWN")
                   | None => prev
                   end) obs2.
Proof.
  revert prev. induction obs1 as [|[st sp] obs1 IH]; intros prev; [done|].
  assert (match last ((st, sp) :: obs1) with
          | Some o => bool_decide (o.1 = "DOWN")
          | None => prev
          end
          = match last obs1 with
            | Some o => bool_decide (o.1 = "DOWN")
            | None => bool_decide (st = "DOWN")
            end) as ->.
  { destruct obs1 as [|o obs1]; [done|]. rewrite last_cons_cons.
    destruct (last (o :: obs1)) eqn:E; [done|]. by apply last_None in E. }
  change (run_starts prev (((st, sp) :: obs1) ++ obs2))
    with (if bool_decide (st = "DOWN")
          then (if prev then [] else [sp]) ++ run_starts true (obs1 ++ obs2)
          else run_starts false (obs1 ++ obs2)).
  change (run_starts prev ((st, sp) :: obs1))
    with (if bool_decide (st = "DOWN")
          then (if prev then [] else [sp]) ++ run_starts true obs1
          else run_starts false obs1).
  destruct (bool_decide (st = "DOWN")); rewrite IH, <- ?app_assoc; done.
Qed.

(** Down, then not down, then down: two starts. *)
Lemma run_starts_down_up_down st s1 s2 s3 :
  st ≠ "DOWN" →
  run_starts false [("DOWN", s1); (st, s2); ("DOWN", s3)] = [s1; s3].
Proof. intros H. simpl. by rewrite (bool_decide_eq_false_2 _ H). Qed.

(** C3. Starting from the initial state and feeding any sequence of probe
    results, the tracker holds for each target as many down episodes as
    the sequence of its observed statuses has maximal runs of ["DOWN"],
    and its stamps are those of the first observation of each run: a run
    counts once whatever its length, and a run that follows a status other
    than ["DOWN"] counts again. *)
Theorem down_run_counted_once (name : string)
    (ticks : list (gmap string string * datetime)) :
  name ∈ REKAP_ORDER →
  ∃ s, feed ticks init = Some s
       ∧ down_counter s !! name
         = Some (Z.of_nat (length (run_starts false
                                     (map (observation name) ticks))))
       ∧ down_times s !! name
         = Some (run_starts false (map (observation name) ticks)).
Proof.
  intros Hn.
  destruct (feed_target ticks init init_tracked) as (s & Hs & _ & Hin & _).
  exists s. split; [done|].
  specialize (Hin name _ Hn (init_target name Hn)).
  apply target_Some in Hin as (_ & _ & Hc & Ht).
  destruct (replay_run_starts (mkTarget "INIT" false 0 [])
              (map (observation name) ticks)) as (_ & H2 & H3); [done|].
  rewrite Hc, Ht, H2, H3. simpl. done.
Qed.

(** Targets A and B of the scenario are Server and Desktop: A is seen
    up, down, down, up and B up, up, down, down at 10:00, 10:05, 10:10 and
    10:15. *)
Example two_targets_scenario :
  let at_ (a b : string) (m : Z) : gmap string string * datetime :=
    ({["Server" := a; "Desktop" := b]},
     mkdatetime (mkdate 2025 1 1) 10 m 0) in
  ∃ s, feed [at_ "UP" "UP" 0; at_ "DOWN" "UP" 5; at_ "DOWN" "DOWN" 10;
             at_ "UP" "DOWN" 15] init = Some s
       ∧ target "Server" s = Some (mkTarget "UP" false 1 ["10:05"])
       ∧ target "Desktop" s = Some (mkTarget "DOWN" true 1 ["10:10"]).
Proof. intros at_. eexists. split; [by vm_compute|]. split; by vm_compute. Qed.

Lemma replay_open_down t obs :
  incidentOpen t = true → Forall (λ o, o.1 = "DOWN") obs →
  incidentOpen (replay t obs) = true
  ∧ downCount (replay t obs) = downCount t
  ∧ downTimestamps (replay t obs) = downTimestamps t.
Proof.
  intros Hop Hall. revert t Hop.
  induction Hall as [|[st sp] obs Hst _ IH]; intros t Hop; [done|].
  simpl in Hst. subst st.
  change (replay t (("DOWN", sp) :: obs))
    with (replay (transition t "DOWN" sp) obs).
  assert (transition t "DOWN" sp
          = mkTarget "DOWN" true (downCount t) (downTimestamps t)) as ->.
  { unfold transition. destruct t as [st0 op c ts]. simpl in *. subst op.
    by destruct (bool_decide (st0 ≠ "DOWN")). }
  by destruct (IH (mkTarget "DOWN" true (downCount t) (downTimestamps t))
                  eq_refl) as (? & ? & ?).
Qed.

(** C6. The reset done by a recap flush (manual, or scheduled when it
    fires) leaves every last status and every open-incident flag as they
    were and gives every counted target the count 0 and no stamps; a target
    whose incident was open stays open, and while its status stays
    ["DOWN"] over any number of later ticks it is not counted again. *)
Theorem reset_keeps_open_incident (EXCEL_AVAILABLE : bool) (now : datetime)
    (s s' : State) (d : Store.Disk) :
  s' = (rekap_now EXCEL_AVAILABLE now (s, d)).1
  ∨ (need now = true ∧ last_rekap_day s ≠ Some (date_of now)
     ∧ s' = (schedule_rekap_if_needed EXCEL_AVAILABLE now (s, d)).1) →
  last_status s' = last_status s
  ∧ incident_open s' = incident_open s
  ∧ (∀ k, is_Some (down_counter s !! k) →
          down_counter s' !! k = Some 0 ∧ down_times s' !! k = Some [])
  ∧ (∀ name ticks,
       tracked s → name ∈ REKAP_ORDER →
       incident_open s !! name = Some true →
       Forall (λ tk, (observation name tk).1 = "DOWN") ticks →
       ∃ s'', feed ticks s' = Some s''
              ∧ incident_open s'' !! name = Some true
              ∧ down_counter s'' !! name = Some 0
              ∧ down_times s'' !! name = Some []).
Proof.
  intros Hs'.
  assert (s' = (rekap_now EXCEL_AVAILABLE now (s, d)).1) as ->.
  { destruct Hs' as [->|(Hn & Hd & ->)]; [done|]. by rewrite schedule_fires. }
  clear Hs'. rewrite rekap_now_state.
  destruct (reset_counters_frame s) as (Hf1 & Hf2 & _).
  split; [done|]. split; [done|]. split.
  - intros k [c Hc]. simpl.
    destruct (reset_counters_lookup s k) as [-> ->]. by rewrite Hc.
  - intros name ticks Htr Hn Hop Hall.
    set (s1 := mkState _ _ _ _ _).
    destruct (Htr name Hn) as [t Ht].
    assert (target name s1
            = Some (mkTarget (lastStatus t) (incidentOpen t) 0 [])) as Ht1.
    { unfold s1. rewrite target_with_date. by apply reset_counters_target. }
    assert (tracked s1) as Htr1.
    { intros n Hin. destruct (Htr n Hin) as [tn Htn]. unfold s1.
      rewrite target_with_date, (reset_counters_target _ _ _ Htn). by eexists. }
    destruct (feed_target ticks s1 Htr1) as (s'' & Hfeed & _ & Hin & _).
    exists s''. split; [done|].
    specialize (Hin name _ Hn Ht1).
    apply target_Some in Ht as (_ & Hop' & _ & _).
    assert (incidentOpen t = true) as Hopen by congruence.
    destruct (replay_open_down
                (mkTarget (lastStatus t) (incidentOpen t) 0 [])
                (map (observation name) ticks)) as (R1 & R2 & R3).
    { done. }
    { by apply Forall_map. }
    apply target_Some in Hin as (_ & Ho & Hc & Hts).
    rewrite Ho, Hc, Hts, R1, R2, R3. done.
Qed.

End EpisodeFacts.

(** Server is seen down at 10:05 and 10:10, up at 10:15 and down again at
    10:20: two episodes, stamped 10:05 and 10:20. *)
Lemma down_run_counted_once_witness :
  let at_ (st : string) (m : Z) : gmap string string * Clock.datetime :=
    ({["Server" := st]}, Clock.mkdatetime (Clock.mkdate 2025 1 1) 10 m 0) in
  ∃ s, Monitor.feed [at_ "DOWN" 5; at_ "DOWN" 10; at_ "UP" 15; at_ "DOWN" 20]
                    Monitor.init = Some s
       ∧ Monitor.down_counter s !! "Server" = Some 2
       ∧ Monitor.down_times s !! "Server" = Some ["10:05"; "10:20"].
Proof.
  intros at_.
  refine (down_run_counted_once "Server"
            [at_ "DOWN" 5; at_ "DOWN" 10; at_ "UP" 15; at_ "DOWN" 20] _).
  compute_done.
Defined.

(** Server has been down since 15:20; the recap fires at 15:30 on
    Wednesday 1 January 2025 and two more ticks see Server down. *)
Lemma reset_keeps_open_incident_witness :
  let now := Clock.mkdatetime (Clock.mkdate 2025 1 1) 15 30 0 in
  let down := ({["Server" := "DOWN"]} : gmap string string, now) in
  let s := Monitor.mkState (<["Server" := "DOWN"]> (Monitor.per_target "UP"))
             (<["Server" := true]> (Monitor.per_target false))
             (<["Server" := 1]> (Monitor.per_target 0))
             (<["Server" := ["15:20"]]> (Monitor.per_target []))
             None in
  let s' := (Monitor.schedule_rekap_if_needed false now
               (s, Store.mkDisk None None)).1 in
  ∃ s'', Monitor.feed [down; down] s' = Some s''
         ∧ Monitor.incident_open s'' !! "Server" = Some true
         ∧ Monitor.down_counter s'' !! "Server" = Some 0
         ∧ Monitor.down_times s'' !! "Server" = Some [].
Proof.
  intros now down s s'.
  refine (proj2 (proj2 (proj2
            (reset_keeps_open_incident false now s s' (Store.mkDisk None None)
               _))) "Server" [down; down] _ _ _ _).
  - right. split; [by vm_compute|]. split; [by vm_compute|done].
  - intros n Hn. each_target Hn ltac:(vm_compute; by eexists).
  - compute_done.
  - by vm_compute.
  - repeat constructor; by vm_compute.
Defined.

(** ** Worksheet primitives *)

Section SheetFacts.
Import Config Store.
Local Open Scope nat_scope.

Lemma used_rows_snoc (ws : sheet) (r : list value) :
  r ≠ [] → used_rows (ws ++ [r]) = ws ++ [r].
Proof.
  intros Hr. induction ws as [|a ws IH]; simpl.
  - by destruct r.
  - rewrite IH. by destruct (ws ++ [r]) eqn:E; [destruct ws|].
Qed.

Lemma used_rows_cons (h : list value) (rest : sheet) :
  h ≠ [] → used_rows (h :: rest) = h :: used_rows rest.
Proof. intros Hh. simpl. destruct (used_rows rest); by destruct h. Qed.

Lemma max_row_pos (ws : sheet) : 1 ≤ max_row ws.
Proof. unfold max_row. lia. Qed.

Lemma max_column_cons (h : list value) (rest : sheet) :
  max_column (h :: rest) = Nat.max (length h) (max_column rest).
Proof. unfold max_column. simpl. lia. Qed.

Lemma max_column_pos (ws : sheet) : 1 ≤ max_column ws.
Proof. unfold max_column. lia. Qed.

Lemma max_column_ge (ws : sheet) (i : nat) (r : list value) :
  ws !! i = Some r → length r ≤ max_column ws.
Proof.
  revert i. induction ws as [|a ws IH]; intros i Hi; [done|].
  rewrite max_column_cons. destruct i as [|i]; simpl in Hi.
  - simplify_eq. lia.
  - apply IH in Hi. lia.
Qed.


Lemma pad_to_length {A} (n : nat) (x : A) (xs : list A) :
  length xs ≤ n → length (pad_to n x xs) = n.
Proof. intros H. unfold pad_to. rewrite length_app, length_replicate. lia. Qed.


Lemma pad_to_take {A} (n k : nat) (x : A) (xs : list A) :
  k ≤ length xs → take k (pad_to n x xs) = take k xs.
Proof. intros H. unfold pad_to. by rewrite take_app_le. Qed.

(** The cells of a row read one by one up to column [n]. *)
Lemma read_row {A} (x : A) (l : list A) (n : nat) :
  length l ≤ n →
  map (λ c, default x (l !! pred c)) (seq 1 n) = pad_to n x l.
Proof.
  intros Hn. apply list_eq. intros i. unfold pad_to.
  rewrite list_lookup_fmap.
  destruct (decide (i < n)) as [Hi|Hi].
  - rewrite lookup_seq_lt by done. simpl.
    destruct (decide (i < length l)) as [Hl|Hl].
    + rewrite lookup_app_l by done.
      destruct (lookup_lt_is_Some_2 l i Hl) as [y Hy]. by rewrite Hy.
    + rewrite lookup_app_r by lia. rewrite (lookup_ge_None_2 l) by lia.
      simpl. symmetry. apply lookup_replicate_2. lia.
  - rewrite lookup_seq_ge by lia. simpl. symmetry.
    apply lookup_ge_None_2. rewrite length_app, length_replicate. lia.
Qed.

Lemma headers_read (h : list value) (rest : sheet) :
  map (cell_value (h :: rest) 1) (seq 1 (max_column (h :: rest)))
  = pad_to (max_column (h :: rest)) VNone h.
Proof.
  rewrite <- (read_row VNone h); [done|].
  rewrite max_column_cons. lia.
Qed.

(** A cell written right of the widest row lengthens the header only. *)
Lemma set_cell_right_of_header (h : list value) (rest : sheet) (v : value) :
  length h = max_column (h :: rest) →
  set_cell (h :: rest) 1 (max_column (h :: rest) + 1) v = (h ++ [v]) :: rest
  ∧ length (h ++ [v]) = max_column ((h ++ [v]) :: rest).
Proof.
  intros Hlen. split.
  - unfold set_cell, pad_to. simpl. rewrite app_nil_r. simpl. f_equal.
    rewrite <- Hlen. replace (length h + 1 - length h) with 1 by lia. simpl.
    replace (pred (length h + 1)) with (length h + 0) by lia.
    by rewrite insert_app_r.
  - rewrite max_column_cons in *. rewrite length_app. simpl. lia.
Qed.

Lemma add_columns (names : list string) (h : list value) (rest : sheet) :
  length h = max_column (h :: rest) →
  foldl (λ w name,
           set_cell w 1 (max_column w + 1) (VStr ("JamDown " +:+ name)))
        (h :: rest) names
  = (h ++ map (λ n, VStr ("JamDown " +:+ n)) names) :: rest.
Proof.
  revert h. induction names as [|n names IH]; intros h Hlen; simpl.
  - by rewrite app_nil_r.
  - destruct (set_cell_right_of_header h rest (VStr ("JamDown " +:+ n)) Hlen)
      as [-> Hlen'].
    rewrite IH by done. by rewrite <- app_assoc.
Qed.

Lemma has_jamdown_pad (n : nat) (h : list value) :
  has_jamdown (pad_to n VNone h) = has_jamdown h.
Proof.
  unfold has_jamdown, pad_to. rewrite existsb_app.
  assert (existsb (λ h0, PyStr.startswith "JamDown " (str_or_empty h0))
            (replicate (n - length h) VNone) = false) as ->.
  { induction (n - length h) as [|k IH]; [done|]. simpl. by rewrite IH. }
  by rewrite orb_false_r.
Qed.

(** The migration of a sheet, said directly: nothing when some header
    starts with ["JamDown "], otherwise six columns at the right end of the
    header and no other row touched. *)
Lemma migrate_header_cons (h : list value) (rest : sheet) :
  migrate_header (h :: rest)
  = if has_jamdown h then None
    else Some ((pad_to (max_column (h :: rest)) VNone h
                ++ map (λ n, VStr ("JamDown " +:+ n)) REKAP_ORDER) :: rest).
Proof.
  unfold migrate_header. rewrite headers_read, has_jamdown_pad.
  destruct (has_jamdown h); [done|]. simpl negb. cbv iota. f_equal.
  set (mc := max_column (h :: rest)).
  change (<[0:=pad_to mc VNone h]> (pad_to 1 [] (h :: rest)))
    with (pad_to mc VNone h :: (rest ++ [])).
  rewrite app_nil_r. apply add_columns.
  assert (length h ≤ mc) by (unfold mc; rewrite max_column_cons; lia).
  rewrite max_column_cons, pad_to_length by done.
  unfold mc. rewrite max_column_cons. lia.
Qed.

(** A sheet that passes the test of line 199. *)
Lemma tanggal_shape (ws : sheet) :
  cell_value ws 1 1 = VStr "Tanggal" →
  ∃ h rest, ws = (VStr "Tanggal" :: h) :: rest.
Proof.
  unfold cell_value. simpl. destruct ws as [|[|v h] rest]; simpl; try done.
  intros ->. by eexists _, _.
Qed.

Lemma new_workbook_rekap :
  Rekap new_workbook = [map VStr full_header].
Proof. done. Qed.

End SheetFacts.

(** ** Report file: creation and migration *)

Section EnsureFacts.
Import Config Store.

(** What the report looks like once [ensure_workbook] has run with
    openpyxl: a workbook whose first row starts with ["Tanggal"] and holds
    a [JamDown] column. *)
Lemma ensure_workbook_xlsx_shape (d : Disk) :
  ∃ h rest g,
    ensure_workbook true d
    = (mkDisk (Some (Book (mkWorkbook ((VStr "Tanggal" :: h) :: rest) g)))
              (csv d), Mxlsx)
    ∧ has_jamdown (VStr "Tanggal" :: h) = true.
Proof.
  assert (∃ h rest g,
            (mkDisk (Some (Book new_workbook)) (csv d), Mxlsx)
            = (mkDisk (Some (Book (mkWorkbook ((VStr "Tanggal" :: h) :: rest) g)))
                 (csv d), Mxlsx)
            ∧ has_jamdown (VStr "Tanggal" :: h) = true) as Hfresh.
  { eexists _, _, _. split; [reflexivity|]. by vm_compute. }
  unfold ensure_workbook. destruct d as [[[|[ws g]]|] c]; simpl; try done.
  rewrite (bool_decide_eq_true_2 _ (max_row_pos ws)). simpl.
  case_bool_decide as Ht; [|done].
  destruct (tanggal_shape ws Ht) as (h & rest & ->).
  rewrite migrate_header_cons.
  destruct (has_jamdown (VStr "Tanggal" :: h)) eqn:Hj.
  - by eexists _, _, _.
  - exists ((h ++ replicate
                    (max_column ((VStr "Tanggal" :: h) :: rest)
                     - length (VStr "Tanggal" :: h)) VNone)
             ++ map (λ n, VStr ("JamDown " +:+ n)) REKAP_ORDER), rest, g.
    split; [done|].
    unfold has_jamdown. cbn [existsb]. rewrite existsb_app.
    assert (existsb (λ h0, PyStr.startswith "JamDown " (str_or_empty h0))
              (map (λ n, VStr ("JamDown " +:+ n)) REKAP_ORDER) = true) as ->
      by (by vm_compute).
    by rewrite !orb_true_r.
Qed.

(** A report that already has its [JamDown] columns is left as it is. *)
Lemma ensure_workbook_xlsx_unchanged (h : list value) (rest : sheet)
    (g : option sheet) (c : option (list (list string))) :
  has_jamdown (VStr "Tanggal" :: h) = true →
  ensure_workbook true
    (mkDisk (Some (Book (mkWorkbook ((VStr "Tanggal" :: h) :: rest) g))) c)
  = (mkDisk (Some (Book (mkWorkbook ((VStr "Tanggal" :: h) :: rest) g))) c,
     Mxlsx).
Proof.
  intros Hj. unfold ensure_workbook. simpl xlsx. cbv iota. simpl Rekap.
  rewrite (bool_decide_eq_true_2 _ (max_row_pos _)).
  rewrite bool_decide_eq_true_2 by done. simpl andb. cbv iota.
  by rewrite migrate_header_cons, Hj.
Qed.

(** X6. [ensure_workbook] is idempotent on both back ends: whatever the
    report files hold, a second run right after the first changes nothing
    and answers the same mode. *)
Lemma ensure_workbook_idempotent (EXCEL_AVAILABLE : bool) (d : Disk) :
  ensure_workbook EXCEL_AVAILABLE (ensure_workbook EXCEL_AVAILABLE d).1
  = ensure_workbook EXCEL_AVAILABLE d.
Proof.
  destruct EXCEL_AVAILABLE.
  - destruct (ensure_workbook_xlsx_shape d) as (h & rest & g & -> & Hj).
    by apply ensure_workbook_xlsx_unchanged.
  - unfold ensure_workbook. by destruct d as [x [rows|]].
Qed.

End EnsureFacts.

(** ** Report file: append and read back *)

Section StoreFacts.
Import Config Store.
Local Open Scope nat_scope.

Variable today : Clock.date.
Variable counters : gmap string Z.
Variable jam_map : option (gmap string (list string)).

Local Abbreviation row := (rekap_row today counters jam_map).

Lemma rekap_row_cons :
  ∃ cells, row = VStr (Clock.strftime_dmY today) :: cells.
Proof. by eexists. Qed.

Lemma rekap_row_count (k : nat) (name : string) :
  REKAP_ORDER !! k = Some name →
  row !! S k = Some (VInt (default 0%Z (counters !! name))).
Proof.
  intros Hk. unfold rekap_row. cbv zeta.
  rewrite (lookup_app_r [_]) by (simpl; lia).
  replace (S k - length [VStr (Clock.strftime_dmY today)]) with k
    by (simpl; lia).
  rewrite lookup_app_l.
  - by rewrite list_lookup_fmap, Hk.
  - rewrite length_map. by apply lookup_lt_Some in Hk.
Qed.

(** With openpyxl, [write_rekap] leaves a workbook whose sheet "Rekap" is
    the ensured sheet with the recap row below its last used row. *)
Lemma write_rekap_xlsx (d : Disk) :
  ∃ h rest g g',
    ensure_workbook true d
    = (mkDisk (Some (Book (mkWorkbook ((VStr "Tanggal" :: h) :: rest) g)))
              (csv d), Mxlsx)
    ∧ has_jamdown (VStr "Tanggal" :: h) = true
    ∧ write_rekap true today counters jam_map d
      = mkDisk (Some (Book (mkWorkbook
                              ((VStr "Tanggal" :: h) :: used_rows rest ++ [row])
                              g')))
               (csv d).
Proof.
  destruct (ensure_workbook_xlsx_shape d) as (h & rest & g & He & Hj).
  unfold write_rekap. rewrite He. cbn [xlsx csv Rekap Grafik].
  unfold append. rewrite used_rows_cons by done.
  destruct (any_down row).
  - eexists h, rest, g, _. split; [done|]. split; [done|].
    unfold update_grafik_sheet. cbn [Rekap]. reflexivity.
  - by eexists h, rest, g, g.
Qed.

Lemma write_rekap_csv (d : Disk) :
  write_rekap false today counters jam_map d
  = mkDisk (xlsx d)
      (Some (default [full_header] (csv d) ++ [map csv_field row])).
Proof. unfold write_rekap, ensure_workbook. by destruct d as [x [rows|]]. Qed.

(** [write_rekap] appends exactly one row to the report in use. *)
Lemma write_rekap_appends (EXCEL_AVAILABLE : bool) (d : Disk) :
  table EXCEL_AVAILABLE (write_rekap EXCEL_AVAILABLE today counters jam_map d)
  = table EXCEL_AVAILABLE (ensure_workbook EXCEL_AVAILABLE d).1
    ++ [stored EXCEL_AVAILABLE row].
Proof.
  destruct EXCEL_AVAILABLE.
  - destruct (write_rekap_xlsx d) as (h & rest & g & g' & -> & _ & ->).
    unfold table, stored. cbn [xlsx fst Rekap].
    rewrite !used_rows_cons by done.
    rewrite used_rows_snoc; [done|]. by destruct rekap_row_cons as [? ->].
  - rewrite write_rekap_csv. unfold table, stored, ensure_workbook.
    destruct d as [x [rows|]]; cbn [csv fst default]; unfold id;
      rewrite map_app; cbn [map]; by rewrite map_map.
Qed.

(** After a write the report needs no further creation or migration. *)
Lemma ensure_after_write (EXCEL_AVAILABLE : bool) (d : Disk) :
  (ensure_workbook EXCEL_AVAILABLE
     (write_rekap EXCEL_AVAILABLE today counters jam_map d)).1
  = write_rekap EXCEL_AVAILABLE today counters jam_map d.
Proof.
  destruct EXCEL_AVAILABLE.
  - destruct (write_rekap_xlsx d) as (h & rest & g & g' & _ & Hj & ->).
    by rewrite ensure_workbook_xlsx_unchanged.
  - by rewrite write_rekap_csv.
Qed.

End StoreFacts.

(** ** Reading the last rows *)

Section ReadFacts.
Import Config Store.
Local Open Scope nat_scope.

Lemma last_drop_lt {A} (k : nat) (l : list A) :
  k < length l → last (drop k l) = last l.
Proof.
  intros Hk. rewrite <- (take_drop k l) at 2. rewrite last_app.
  destruct (last (drop k l)) eqn:E; [done|].
  apply last_None in E. apply (f_equal length) in E.
  rewrite length_drop in E. simpl in E. lia.
Qed.

Lemma last_last_n {A} (n : nat) (l : list A) :
  0 < n → last (last_n n l) = last l.
Proof.
  intros Hn. unfold last_n. destruct l as [|x l]; [done|].
  apply last_drop_lt. simpl. lia.
Qed.




Section Collect.
Context {R : Type} (val : R → string → Z).

Lemma collect_row (names : list string) (data : gmap string (list Z))
    (r : R) (n : string) :
  NoDup names →
  foldl (λ data name, alter (λ l, l ++ [val r name]) name data) data names
    !! n
  = if decide (n ∈ names) then (λ l, l ++ [val r n]) <$> data !! n
    else data !! n.
Proof.
  intros Hnd. revert data.
  induction Hnd as [|a names Ha Hnd IH]; intros data.
  { destruct (decide (n ∈ [])) as [H|H]; [by apply elem_of_nil in H|done]. }
  cbn [foldl]. rewrite IH. destruct (decide (n = a)) as [->|Hne].
  - destruct (decide (a ∈ names)); [done|].
    destruct (decide (a ∈ a :: names)) as [_|H]; [|destruct H; by left].
    by rewrite lookup_alter_eq.
  - rewrite lookup_alter_ne by done.
    destruct (decide (n ∈ names)) as [Hin|Hin];
      destruct (decide (n ∈ a :: names)) as [Hin'|Hin']; try done.
    + destruct Hin'. by right.
    + by apply elem_of_cons in Hin' as [?|?].
Qed.

Lemma collect_rows (data : gmap string (list Z)) (rows : list R)
    (n : string) :
  n ∈ REKAP_ORDER →
  foldl (λ data r,
           foldl (λ data name, alter (λ l, l ++ [val r name]) name data)
                 data REKAP_ORDER) data rows !! n
  = (λ l, l ++ map (λ r, val r n) rows) <$> data !! n.
Proof.
  intros Hn. revert data. induction rows as [|r rows IH]; intros data.
  { simpl. destruct (data !! n); simpl; [|done]. by rewrite app_nil_r. }
  cbn [foldl map]. rewrite IH, (collect_row _ _ _ _ REKAP_ORDER_NoDup).
  destruct (decide (n ∈ REKAP_ORDER)); [|done].
  destruct (data !! n); simpl; [|done]. by rewrite <- app_assoc.
Qed.

(** The series of a target holds one value per row read, in row order. *)
Lemma collect_lookup (rows : list R) (n : string) :
  n ∈ REKAP_ORDER → collect val rows !! n = Some (map (λ r, val r n) rows).
Proof.
  intros Hn. unfold collect. rewrite collect_rows by done.
  assert ((list_to_map (map (λ n0, (n0, [])) REKAP_ORDER)
             : gmap string (list Z)) !! n = Some []) as ->; [|done].
  each_target Hn ltac:(by vm_compute).
Qed.

End Collect.

End ReadFacts.

(** ** Round trip through the report *)

Section RoundTrip.
Import Config Store.
Local Open Scope nat_scope.

Variable today : Clock.date.
Variable counters : gmap string Z.
Variable jam_map : option (gmap string (list string)).

Local Abbreviation row := (rekap_row today counters jam_map).


Lemma row_length : 7 ≤ length row.
Proof.
  unfold rekap_row. cbv zeta. rewrite !length_app, !length_map.
  simpl. lia.
Qed.


Lemma row_nonempty : row ≠ [].
Proof. intros E. pose proof row_length as H. rewrite E in H. simpl in H. lia. Qed.





End RoundTrip.

Section StoreTheorems.
Import Config Store.




(** With openpyxl, a legacy report (first cell ["Tanggal"], no header
    starting with ["JamDown "]) gets the six [JamDown] columns at the right
    end of its header; no other row, sheet or file changes. *)
Lemma ensure_workbook_xlsx_migrates (h : list value) (rest : sheet)
    (g : option sheet) (c : option (list (list string))) :
  has_jamdown (VStr "Tanggal" :: h) = false →
  ensure_workbook true
    (mkDisk (Some (Book (mkWorkbook ((VStr "Tanggal" :: h) :: rest) g))) c)
  = (mkDisk
       (Some (Book (mkWorkbook
                      ((pad_to (max_column ((VStr "Tanggal" :: h) :: rest))
                               VNone (VStr "Tanggal" :: h)
                        ++ map (λ n, VStr ("JamDown " +:+ n)) REKAP_ORDER)
                       :: rest) g))) c,
     Mxlsx).
Proof.
  intros Hj. unfold ensure_workbook. cbn [xlsx csv Rekap Grafik].
  rewrite (bool_decide_eq_true_2 _ (max_row_pos _)).
  rewrite bool_decide_eq_true_2 by done. cbn [andb].
  by rewrite migrate_header_cons, Hj.
Qed.

(** Without openpyxl an existing CSV file is never rewritten. *)
Lemma ensure_workbook_csv_existing (x : option xlsx_file)
    (rows : list (list string)) :
  ensure_workbook false (mkDisk x (Some rows)) = (mkDisk x (Some rows), Mcsv).
Proof. done. Qed.

(** C8 (the code departs from the claim). A CSV report with the legacy
    header (date and counts only) is left exactly as it is by
    [ensure_workbook] when openpyxl is missing: no [JamDown] column is
    added to its header. The same content held in a workbook, with
    openpyxl present, does get the six columns. *)
Theorem ensure_workbook_csv_legacy_header :
  let legacy := [count_header; ["01/01/2025"; "1"; "0"; "0"; "0"; "0"; "0"]] in
  let legacy_sheet :=
    [map VStr count_header;
     [VStr "01/01/2025"; VInt 1; VInt 0; VInt 0; VInt 0; VInt 0; VInt 0]] in
  ensure_workbook false (mkDisk None (Some legacy))
  = (mkDisk None (Some legacy), Mcsv)
  ∧ ensure_workbook true
      (mkDisk (Some (Book (mkWorkbook legacy_sheet None))) None)
    = (mkDisk
         (Some (Book (mkWorkbook
                        [map VStr full_header;
                         [VStr "01/01/2025"; VInt 1; VInt 0; VInt 0; VInt 0;
                          VInt 0; VInt 0]] None))) None,
       Mxlsx).
Proof. split; by vm_compute. Qed.

End StoreTheorems.


(** ** Recap scheduler and manual flush *)

Section SchedulerFacts.
Import Config Clock Store Monitor.
Variable EXCEL_AVAILABLE : bool.



(** The row a flush writes, and the rows of the report after it. *)
Lemma rekap_now_appends now s d :
  (rekap_now EXCEL_AVAILABLE now (s, d)).2
  = write_rekap EXCEL_AVAILABLE (date_of now) (down_counter s)
      (Some (down_times s)) d
  ∧ table EXCEL_AVAILABLE (rekap_now EXCEL_AVAILABLE now (s, d)).2
    = table EXCEL_AVAILABLE (ensure_workbook EXCEL_AVAILABLE d).1
      ++ [stored EXCEL_AVAILABLE
            (rekap_row (date_of now) (down_counter s) (Some (down_times s)))].
Proof. split; [done|]. apply write_rekap_appends. Qed.

Lemma rekap_now_resets now s d k :
  is_Some (down_counter s !! k) →
  down_counter (rekap_now EXCEL_AVAILABLE now (s, d)).1 !! k = Some 0
  ∧ down_times (rekap_now EXCEL_AVAILABLE now (s, d)).1 !! k = Some [].
Proof.
  intros [c Hc]. rewrite rekap_now_state. cbn [down_counter down_times].
  destruct (reset_counters_lookup s k) as [-> ->]. by rewrite Hc.
Qed.

Lemma rekap_now_date now s d :
  last_rekap_day (rekap_now EXCEL_AVAILABLE now (s, d)).1
  = Some (date_of now).
Proof. done. Qed.

(** Once a flush has recorded today, the scheduler stays idle for the
    rest of the day. *)
Lemma schedule_after_flush now now' s d :
  date_of now' = date_of now →
  schedule_rekap_if_needed EXCEL_AVAILABLE now'
    (rekap_now EXCEL_AVAILABLE now (s, d))
  = rekap_now EXCEL_AVAILABLE now (s, d).
Proof.
  intros Hd. pose proof (rekap_now_date now s d) as Hday.
  destruct (rekap_now EXCEL_AVAILABLE now (s, d)) as [s1 d1].
  apply schedule_idle. right. simpl in Hday. by rewrite Hd.
Qed.


(** C1, as the code has it. The manual flush appends the same row and
    does the same reset as the scheduled flush, and it does not look at the
    recorded recap date; but it does record today as that date. So a
    scheduled boundary reached later on the day of a manual flush does not
    fire. In the other order, a manual flush after the scheduled one of the
    same day, both write a row for that date. *)
Theorem rekap_now_records_today (now : datetime) (s : State) (d : Disk) :
  (need now = true → last_rekap_day s ≠ Some (date_of now) →
   schedule_rekap_if_needed EXCEL_AVAILABLE now (s, d)
   = rekap_now EXCEL_AVAILABLE now (s, d))
  ∧ table EXCEL_AVAILABLE (rekap_now EXCEL_AVAILABLE now (s, d)).2
    = table EXCEL_AVAILABLE (ensure_workbook EXCEL_AVAILABLE d).1
      ++ [stored EXCEL_AVAILABLE
            (rekap_row (date_of now) (down_counter s) (Some (down_times s)))]
  ∧ (∀ k, is_Some (down_counter s !! k) →
          down_counter (rekap_now EXCEL_AVAILABLE now (s, d)).1 !! k = Some 0
          ∧ down_times (rekap_now EXCEL_AVAILABLE now (s, d)).1 !! k
            = Some [])
  ∧ (∀ day,
       rekap_now EXCEL_AVAILABLE now
         (mkState (last_status s) (incident_open s) (down_counter s)
                  (down_times s) day, d)
       = rekap_now EXCEL_AVAILABLE now (s, d))
  ∧ last_rekap_day (rekap_now EXCEL_AVAILABLE now (s, d)).1
    = Some (date_of now)
  ∧ (∀ now', date_of now' = date_of now →
             schedule_rekap_if_needed EXCEL_AVAILABLE now'
               (rekap_now EXCEL_AVAILABLE now (s, d))
             = rekap_now EXCEL_AVAILABLE now (s, d))
  ∧ (∀ now', need now = true → last_rekap_day s ≠ Some (date_of now) →
             date_of now' = date_of now →
             ∃ cells1 cells2,
               table EXCEL_AVAILABLE
                 (rekap_now EXCEL_AVAILABLE now'
                    (schedule_rekap_if_needed EXCEL_AVAILABLE now (s, d))).2
               = table EXCEL_AVAILABLE (ensure_workbook EXCEL_AVAILABLE d).1
                 ++ [stored EXCEL_AVAILABLE
                       (VStr (strftime_dmY (date_of now)) :: cells1);
                     stored EXCEL_AVAILABLE
                       (VStr (strftime_dmY (date_of now)) :: cells2)]).
Proof.
  split; [apply schedule_fires|]. split; [apply rekap_now_appends|].
  split; [apply rekap_now_resets|]. split.
  { intros day. unfold rekap_now, reset_counters.
    cbn [last_status incident_open down_counter down_times last_rekap_day].
    by destruct (map_fold _ _ _). }
  split; [apply rekap_now_date|]. split.
  { intros now'. apply schedule_after_flush. }
  intros now' Hn Hd Hsame. rewrite schedule_fires by done.
  pose proof (rekap_now_appends now s d) as [Hw Ht].
  destruct (rekap_now EXCEL_AVAILABLE now (s, d)) as [s1 d1] eqn:E.
  cbn [fst snd] in *.
  destruct (rekap_now_appends now' s1 d1) as [_ Ht'].
  rewrite Ht'. subst d1. rewrite ensure_after_write, Ht, Hsame.
  destruct (rekap_row_cons (date_of now) (down_counter s)
              (Some (down_times s))) as [cells1 ->].
  destruct (rekap_row_cons (date_of now) (down_counter s1)
              (Some (down_times s1))) as [cells2 ->].
  exists cells1, cells2. by rewrite <- app_assoc.
Qed.

End SchedulerFacts.


(** A manual flush at 10:00 on Wednesday 1 January 2025, then the 15:30
    boundary of the same day. *)
Lemma rekap_now_records_today_witness :
  let now := Clock.mkdatetime (Clock.mkdate 2025 1 1) 10 0 0 in
  let later := Clock.mkdatetime (Clock.mkdate 2025 1 1) 15 30 0 in
  Monitor.schedule_rekap_if_needed true later
    (Monitor.rekap_now true now (Monitor.init, Store.mkDisk None None))
  = Monitor.rekap_now true now (Monitor.init, Store.mkDisk None None).
Proof.
  intros now later.
  refine (proj1 (proj2 (proj2 (proj2 (proj2 (proj2
            (rekap_now_records_today true now Monitor.init
               (Store.mkDisk None None))))))) later _).
  reflexivity.
Defined.

(** C1, as stated, fails: after the manual flush of 10:00 the recorded
    recap date is no longer what it was, and at the 15:30 boundary of the
    same day the scheduler, although a recap is needed, leaves the state
    and the report as they are: the report holds the one row of the manual
    flush. *)
Lemma rekap_now_then_boundary_counterexample :
  let now := Clock.mkdatetime (Clock.mkdate 2025 1 1) 10 0 0 in
  let later := Clock.mkdatetime (Clock.mkdate 2025 1 1) 15 30 0 in
  let flushed :=
    Monitor.rekap_now false now (Monitor.init, Store.mkDisk None None) in
  Monitor.last_rekap_day flushed.1 ≠ Monitor.last_rekap_day Monitor.init
  ∧ Monitor.need later = true
  ∧ Clock.date_of later = Clock.date_of now
  ∧ Monitor.schedule_rekap_if_needed false later flushed = flushed
  ∧ Store.table false
      (Monitor.schedule_rekap_if_needed false later flushed).2
    = [map Store.VStr Store.full_header;
       map Store.VStr ["01/01/2025"; "0"; "0"; "0"; "0"; "0"; "0";
                       ""; ""; ""; ""; ""; ""]].
Proof.
  intros now later flushed. split; [discriminate|].
  split; [by vm_compute|]. split; [done|]. split; by vm_compute.
Qed.

(** * Further properties *)

(** ** Tracking across recaps *)

Section ExecFacts.
Import Config Clock Store Monitor.
Variable EXCEL_AVAILABLE : bool.

Lemma exec_cons e es sd :
  exec EXCEL_AVAILABLE (e :: es) sd
  = sd' ← step EXCEL_AVAILABLE e sd; exec EXCEL_AVAILABLE es sd'.
Proof.
  unfold exec. cbn [foldl mbind option_bind].
  destruct (step EXCEL_AVAILABLE e sd) as [sd'|]; cbn [mbind option_bind].
  - done.
  - induction es as [|? ? IH]; [done|]. apply IH.
Qed.

Lemma transition_step t st stamp :
  coherent t →
  coherent (transition t st stamp)
  ∧ lastStatus (transition t st stamp) = st
  ∧ incidentOpen (transition t st stamp) = bool_decide (st = "DOWN")
  ∧ downCount (transition t st stamp)
    + Z.of_nat (length (run_starts (bool_decide (st = "DOWN")) []))
    = downCount t
      + Z.of_nat (length (run_starts (incidentOpen t) [(st, stamp)])).
Proof.
  intros Hco. split; [by apply transition_coherent|].
  unfold coherent in Hco. unfold transition. destruct t as [st0 op c ts].
  simpl in *. subst op.
  repeat (case_bool_decide; simpl); try congruence; repeat split; lia.
Qed.

Lemma run_starts_cons prev st stamp obs :
  Z.of_nat (length (run_starts prev ((st, stamp) :: obs)))
  = Z.of_nat (length (run_starts prev [(st, stamp)]))
    + Z.of_nat (length (run_starts (bool_decide (st = "DOWN")) obs)).
Proof.
  simpl. case_bool_decide; rewrite ?length_app, ?app_nil_r; simpl; lia.
Qed.

(** What [replay] leaves as status and flag depends on the status and
    flag it starts from only. *)
Lemma replay_tracking t1 t2 obs :
  lastStatus t1 = lastStatus t2 → incidentOpen t1 = incidentOpen t2 →
  lastStatus (replay t1 obs) = lastStatus (replay t2 obs)
  ∧ incidentOpen (replay t1 obs) = incidentOpen (replay t2 obs).
Proof.
  revert t1 t2. induction obs as [|[st sp] obs IH]; intros t1 t2 H1 H2.
  { done. }
  change (replay t1 ((st, sp) :: obs)) with (replay (transition t1 st sp) obs).
  change (replay t2 ((st, sp) :: obs)) with (replay (transition t2 st sp) obs).
  destruct t1 as [s1 o1 c1 l1], t2 as [s2 o2 c2 l2]. simpl in H1, H2.
  subst s2 o2.
  apply IH; unfold transition; simpl;
    destruct (bool_decide (s1 ≠ "DOWN")), (bool_decide (st = "DOWN")),
      (bool_decide (st ≠ "DOWN")), o1; simpl; done.
Qed.

Lemma steady_init : steady init.
Proof.
  apply Forall_forall. intros name Hn. rewrite init_target by done.
  eexists. split; [done|]. done.
Qed.

Lemma steady_tracked s : steady s → tracked s.
Proof.
  intros Hs name Hn. apply (proj1 (Forall_forall _ _) Hs) in Hn as (t & Ht & _).
  by eexists.
Qed.

Lemma steady_flush now s d :
  steady s → steady (rekap_now EXCEL_AVAILABLE now (s, d)).1.
Proof.
  intros Hs. rewrite rekap_now_state. apply Forall_forall. intros name Hn.
  apply (proj1 (Forall_forall _ _) Hs) in Hn as (t & Ht & Hco).
  rewrite target_with_date, (reset_counters_target _ _ _ Ht).
  eexists. split; [done|]. exact Hco.
Qed.

Lemma rekap_now_target now s d name t :
  target name s = Some t →
  target name (rekap_now EXCEL_AVAILABLE now (s, d)).1
  = Some (mkTarget (lastStatus t) (incidentOpen t) 0 []).
Proof.
  intros Ht. rewrite rekap_now_state, target_with_date.
  by apply reset_counters_target.
Qed.

Lemma rekap_row_count_at today (counters : gmap string Z) jam_map k name c :
  REKAP_ORDER !! k = Some name → counters !! name = Some c →
  count_at k (rekap_row today counters jam_map) = c.
Proof.
  intros Hk Hc. unfold count_at.
  by rewrite (rekap_row_count today counters jam_map k name Hk), Hc.
Qed.

(** The general statement: from a steady state, any sequence of events
    runs to the end; the report grows by the rows of the flushes; each
    target ends with the status and flag the observations alone would give,
    and the counts written plus the count still held make up the number of
    episodes started. *)
Lemma exec_general es s d :
  steady s →
  ∃ s' d' rows,
    exec EXCEL_AVAILABLE es (s, d) = Some (s', d')
    ∧ steady s'
    ∧ (rows = [] → d' = d)
    ∧ table EXCEL_AVAILABLE d'
      = (if rows is [] then table EXCEL_AVAILABLE d
         else table EXCEL_AVAILABLE (ensure_workbook EXCEL_AVAILABLE d).1)
        ++ map (stored EXCEL_AVAILABLE) rows
    ∧ ∀ k name t, REKAP_ORDER !! k = Some name → target name s = Some t →
        ∃ t', target name s' = Some t'
              ∧ lastStatus t'
                = lastStatus (replay t (map (observation name) (observed es)))
              ∧ incidentOpen t'
                = incidentOpen
                    (replay t (map (observation name) (observed es)))
              ∧ written k rows + downCount t'
                = downCount t
                  + Z.of_nat (length (run_starts (incidentOpen t)
                                        (map (observation name)
                                           (observed es)))).
Proof.
  revert s d. induction es as [|e es IH]; intros s d Hs.
  { exists s, d, []. split; [done|]. split; [done|]. split; [done|].
    split; [by rewrite app_nil_r|].
    intros k name t Hk Ht. exists t. simpl. repeat split; try done. lia. }
  rewrite exec_cons.
  assert (∀ now,
    ∃ s' d' rows,
      exec EXCEL_AVAILABLE es (rekap_now EXCEL_AVAILABLE now (s, d))
      = Some (s', d')
      ∧ steady s'
      ∧ (rows = [] → d' = d)
      ∧ table EXCEL_AVAILABLE d'
        = (if rows is [] then table EXCEL_AVAILABLE d
           else table EXCEL_AVAILABLE (ensure_workbook EXCEL_AVAILABLE d).1)
          ++ map (stored EXCEL_AVAILABLE) rows
      ∧ ∀ k name t, REKAP_ORDER !! k = Some name → target name s = Some t →
          ∃ t', target name s' = Some t'
                ∧ lastStatus t'
                  = lastStatus (replay t (map (observation name) (observed es)))
                ∧ incidentOpen t'
                  = incidentOpen
                      (replay t (map (observation name) (observed es)))
                ∧ written k rows + downCount t'
                  = downCount t
                    + Z.of_nat (length (run_starts (incidentOpen t)
                                          (map (observation name)
                                             (observed es))))) as Hflush.
  { intros now.
    pose proof (steady_flush now s d Hs) as Hs1.
    pose proof (rekap_now_appends EXCEL_AVAILABLE now s d) as [Hw Ht1].
    pose proof (λ name t, rekap_now_target now s d name t) as Htg.
    destruct (rekap_now EXCEL_AVAILABLE now (s, d)) as [s1 d1].
    cbn [fst snd] in *.
    destruct (IH s1 d1 Hs1) as (s' & d' & rows & Hex & Hs' & _ & Htab & Hall).
    set (r := rekap_row (date_of now) (down_counter s) (Some (down_times s))).
    exists s', d', (r :: rows). split; [done|]. split; [done|].
    split; [done|]. split.
    - assert ((if rows is [] then table EXCEL_AVAILABLE d1
               else table EXCEL_AVAILABLE
                      (ensure_workbook EXCEL_AVAILABLE d1).1)
              = table EXCEL_AVAILABLE d1) as Hbase.
      { destruct rows; [done|]. rewrite Hw. by rewrite ensure_after_write. }
      rewrite Htab, Hbase, Ht1. fold r. cbn [map].
      by rewrite <- app_assoc.
    - intros k name t Hk Ht.
      destruct (Hall k name _ Hk (Htg name t Ht)) as (t' & Ht' & H1 & H2 & H3).
      exists t'. split; [done|].
      destruct (replay_tracking
                  (mkTarget (lastStatus t) (incidentOpen t) 0 []) t
                  (map (observation name) (observed es)) eq_refl eq_refl)
        as [R1 R2].
      split; [congruence|]. split; [congruence|].
      cbn [written foldr]. fold (written k rows).
      apply target_Some in Ht as (_ & _ & Hc & _).
      unfold r.
      rewrite (rekap_row_count_at _ _ _ k name (downCount t) Hk Hc).
      simpl in H3. lia. }
  destruct e as [results now|now|now]; cbn [step fst snd].
  - destruct (track_all_target results now s (steady_tracked _ Hs))
      as (s1 & -> & _ & Hin & _). cbn [mbind option_bind].
    assert (steady s1) as Hs1.
    { apply Forall_forall. intros name Hn.
      destruct (proj1 (Forall_forall _ _) Hs name Hn) as (t & Ht & Hco).
      rewrite (Hin name t Hn Ht). eexists. split; [done|].
      by apply transition_coherent. }
    destruct (IH s1 d Hs1) as (s' & d' & rows & Hex & Hs' & Hd & Htab & Hall).
    exists s', d', rows. repeat (split; [done|]).
    intros k name t Hk Ht.
    assert (name ∈ REKAP_ORDER) as Hn by (by eapply list_elem_of_lookup_2).
    destruct (proj1 (Forall_forall _ _) Hs name Hn) as (t0 & Ht0 & Hco).
    assert (t0 = t) as -> by congruence.
    destruct (Hall k name _ Hk (Hin name t Hn Ht)) as (t' & Ht' & H1 & H2 & H3).
    exists t'. split; [done|].
    change (observed (Observe results now :: es))
      with ((results, now) :: observed es).
    cbn [map].
    change (observation name (results, now))
      with (default "DOWN" (results !! name), strftime_HM now).
    set (st := default "DOWN" (results !! name)) in *.
    set (sp := strftime_HM now) in *.
    change (replay t ((st, sp) :: ?l)) with (replay (transition t st sp) l).
    split; [done|]. split; [done|].
    destruct (transition_step t st sp Hco) as (_ & _ & Hop & Hcnt).
    rewrite H3, Hop, (run_starts_cons (incidentOpen t) st sp).
    change (Z.of_nat (length (run_starts (bool_decide (st = "DOWN")) [])))
      with 0 in Hcnt.
    lia.
  - destruct (need now && bool_decide (last_rekap_day s ≠ Some (date_of now)))
      eqn:Hfire.
    + apply andb_true_iff in Hfire as [Hn Hd%bool_decide_eq_true].
      rewrite schedule_fires by done. cbn [mbind option_bind]. apply Hflush.
    + assert (schedule_rekap_if_needed EXCEL_AVAILABLE now (s, d) = (s, d))
        as -> by (unfold schedule_rekap_if_needed; by rewrite Hfire).
      cbn [mbind option_bind]. by apply IH.
  - cbn [mbind option_bind]. apply Hflush.
Qed.

End ExecFacts.

Section RunFacts.
Import Config Clock Store Monitor.
Variable EXCEL_AVAILABLE : bool.

Lemma steady_track_all results now s :
  steady s →
  ∃ s', track_all results now s = Some s' ∧ steady s'
        ∧ last_rekap_day s' = last_rekap_day s.
Proof.
  intros Hs.
  destruct (track_all_target results now s (steady_tracked _ Hs))
    as (s1 & Hs1 & _ & Hin & _ & Hd).
  exists s1. split; [done|]. split; [|done].
  apply Forall_forall. intros name Hn.
  destruct (proj1 (Forall_forall _ _) Hs name Hn) as (t & Ht & Hco).
  rewrite (Hin name t Hn Ht). eexists. split; [done|].
  by apply transition_coherent.
Qed.

Lemma run_cons t ticks sd :
  run EXCEL_AVAILABLE (t :: ticks) sd
  = sd' ← tick EXCEL_AVAILABLE t.1 t.2 sd; run EXCEL_AVAILABLE ticks sd'.
Proof.
  unfold run. cbn [foldl mbind option_bind].
  destruct (tick EXCEL_AVAILABLE t.1 t.2 sd) as [sd'|];
    cbn [mbind option_bind]; [done|].
  induction ticks as [|? ? IH]; [done|]. apply IH.
Qed.

(** Once today is recorded, the ticks of the rest of the day leave the
    report alone. *)
Lemma run_recorded_day (day : date) ticks s d :
  steady s → last_rekap_day s = Some day →
  Forall (λ t : gmap string string * datetime, date_of t.2 = day) ticks →
  ∃ s', run EXCEL_AVAILABLE ticks (s, d) = Some (s', d).
Proof.
  intros Hs Hday Hall. revert s Hs Hday.
  induction Hall as [|[results now] ticks Hnow _ IH]; intros s Hs Hday.
  { by exists s. }
  rewrite run_cons. unfold tick. cbn [fst snd] in *.
  destruct (steady_track_all results now s Hs) as (s1 & -> & Hs1 & Hd1).
  cbn [mbind option_bind].
  rewrite schedule_idle by (right; congruence).
  apply IH; [done|congruence].
Qed.

(** X4. Whatever the probe results, the ticks of one calendar day write at
    most one scheduled recap row: after them the report is either untouched
    or one row longer than the ensured report. *)
Theorem one_scheduled_recap_per_day (day : date)
    (ticks : list (gmap string string * datetime)) (s : State) (d : Disk) :
  steady s →
  Forall (λ t : gmap string string * datetime, date_of t.2 = day) ticks →
  ∃ s' d',
    run EXCEL_AVAILABLE ticks (s, d) = Some (s', d')
    ∧ (d' = d
       ∨ ∃ row, table EXCEL_AVAILABLE d'
                = table EXCEL_AVAILABLE
                    (ensure_workbook EXCEL_AVAILABLE d).1
                  ++ [stored EXCEL_AVAILABLE row]).
Proof.
  intros Hs Hall. revert s Hs.
  induction Hall as [|[results now] ticks Hnow Hrest IH]; intros s Hs.
  { exists s, d. split; [done|by left]. }
  rewrite run_cons. unfold tick. cbn [fst snd] in *.
  destruct (steady_track_all results now s Hs) as (s1 & -> & Hs1 & Hd1).
  cbn [mbind option_bind].
  destruct (need now && bool_decide (last_rekap_day s1 ≠ Some (date_of now)))
    eqn:Hfire.
  - apply andb_true_iff in Hfire as [Hn Hd%bool_decide_eq_true].
    rewrite schedule_fires by done.
    pose proof (steady_flush EXCEL_AVAILABLE now s1 d Hs1) as Hs2.
    pose proof (rekap_now_appends EXCEL_AVAILABLE now s1 d) as [_ Ht].
    pose proof (rekap_now_date EXCEL_AVAILABLE now s1 d) as Hday.
    destruct (rekap_now EXCEL_AVAILABLE now (s1, d)) as [s2 d2].
    cbn [fst snd] in *.
    destruct (run_recorded_day day ticks s2 d2 Hs2) as [s' Hrun];
      [congruence|done|].
    exists s', d2. split; [done|]. right. by eexists.
  - assert (schedule_rekap_if_needed EXCEL_AVAILABLE now (s1, d) = (s1, d))
      as -> by (unfold schedule_rekap_if_needed; by rewrite Hfire).
    by apply IH.
Qed.

(** X5. A boundary that no tick falls on is not made up for: ticks none of
    which is at a recap boundary leave the report untouched and do to the
    state what the tracker alone does (no reset, no date recorded). *)
Theorem no_boundary_no_recap
    (ticks : list (gmap string string * datetime)) (s : State) (d : Disk) :
  Forall (λ t : gmap string string * datetime, need t.2 = false) ticks →
  run EXCEL_AVAILABLE ticks (s, d) = (λ s', (s', d)) <$> feed ticks s.
Proof.
  intros Hall. revert s.
  induction Hall as [|[results now] ticks Hnow _ IH]; intros s; [done|].
  rewrite run_cons, feed_cons. unfold tick. cbn [fst snd] in *.
  destruct (track_all results now s) as [s1|]; cbn [mbind option_bind];
    [|done].
  rewrite schedule_idle by (by left). apply IH.
Qed.

(** X1. From the initial state, after any sequence of tracker updates,
    scheduler calls and manual flushes, a target's incident is open exactly
    when its last status is ["DOWN"]. *)
Theorem incident_open_iff_down (es : list event) (d : Disk) :
  ∃ s d',
    exec EXCEL_AVAILABLE es (init, d) = Some (s, d')
    ∧ Forall (λ name, ∃ st opened,
                last_status s !! name = Some st
                ∧ incident_open s !! name = Some opened
                ∧ (opened = true ↔ st = "DOWN"))
             REKAP_ORDER.
Proof.
  destruct (exec_general EXCEL_AVAILABLE es init d steady_init)
    as (s & d' & rows & Hex & Hs & _).
  exists s, d'. split; [done|]. apply Forall_forall. intros name Hn.
  destruct (proj1 (Forall_forall _ _) Hs name Hn) as (t & Ht & Hco).
  apply target_Some in Ht as (H1 & H2 & _).
  exists (lastStatus t), (incidentOpen t). split; [done|]. split; [done|].
  unfold coherent in Hco. rewrite Hco. apply bool_decide_eq_true.
Qed.

(** X2. Recap flushes never disturb the tracking: after any sequence of
    events from the initial state, every target has the last status and the
    open-incident flag it would have had if the probe results alone had
    been fed to the tracker. *)
Theorem flushes_leave_tracking (es : list event) (d : Disk) :
  ∃ s d' s0,
    exec EXCEL_AVAILABLE es (init, d) = Some (s, d')
    ∧ feed (observed es) init = Some s0
    ∧ Forall (λ name, last_status s !! name = last_status s0 !! name
                      ∧ incident_open s !! name = incident_open s0 !! name)
             REKAP_ORDER.
Proof.
  destruct (exec_general EXCEL_AVAILABLE es init d steady_init)
    as (s & d' & rows & Hex & _ & _ & _ & Hall).
  destruct (feed_target (observed es) init init_tracked)
    as (s0 & Hfeed & _ & Hin & _).
  exists s, d', s0. split; [done|]. split; [done|].
  apply Forall_forall. intros name Hn.
  destruct (proj1 (list_elem_of_lookup _ _) Hn) as [k Hk].
  destruct (Hall k name _ Hk (init_target name Hn)) as (t' & Ht' & H1 & H2 & _).
  specialize (Hin name _ Hn (init_target name Hn)).
  apply target_Some in Ht' as (A1 & A2 & _).
  apply target_Some in Hin as (B1 & B2 & _).
  rewrite A1, A2, B1, B2, H1, H2. done.
Qed.

(** X3. No down episode is lost or counted twice across recaps: after any
    sequence of events from the initial state the report has grown by the
    rows of the flushes, and for every target the counts written in those
    rows plus the count still held equal the number of maximal runs of
    ["DOWN"] among its observed statuses. *)
Theorem episodes_conserved (es : list event) (d : Disk) :
  ∃ s d' rows,
    exec EXCEL_AVAILABLE es (init, d) = Some (s, d')
    ∧ table EXCEL_AVAILABLE d'
      = (if rows is [] then table EXCEL_AVAILABLE d
         else table EXCEL_AVAILABLE (ensure_workbook EXCEL_AVAILABLE d).1)
        ++ map (stored EXCEL_AVAILABLE) rows
    ∧ ∀ k name, REKAP_ORDER !! k = Some name →
        ∃ count, down_counter s !! name = Some count
                 ∧ written k rows + count
                   = Z.of_nat (length (run_starts false
                                         (map (observation name)
                                            (observed es)))).
Proof.
  destruct (exec_general EXCEL_AVAILABLE es init d steady_init)
    as (s & d' & rows & Hex & _ & _ & Htab & Hall).
  exists s, d', rows. split; [done|]. split; [done|].
  intros k name Hk.
  assert (name ∈ REKAP_ORDER) as Hn by (by eapply list_elem_of_lookup_2).
  destruct (Hall k name _ Hk (init_target name Hn)) as (t' & Ht' & _ & _ & H3).
  apply target_Some in Ht' as (_ & _ & Hc & _).
  exists (downCount t'). split; [done|]. simpl in H3. lia.
Qed.

End RunFacts.

(** The 15:30 boundary of Wednesday 1 January 2025 seen by three ticks
    three seconds apart. *)
Lemma one_scheduled_recap_per_day_witness :
  let at_ (sec : Z) : gmap string string * Clock.datetime :=
    (∅, Clock.mkdatetime (Clock.mkdate 2025 1 1) 15 30 sec) in
  ∃ s' d',
    Monitor.run false [at_ 0; at_ 3; at_ 6]
      (Monitor.init, Store.mkDisk None None) = Some (s', d')
    ∧ (d' = Store.mkDisk None None
       ∨ ∃ row, Store.table false d'
                = Store.table false
                    (Store.ensure_workbook false (Store.mkDisk None None)).1
                  ++ [Store.stored false row]).
Proof.
  intros at_.
  refine (one_scheduled_recap_per_day false (Clock.mkdate 2025 1 1)
            [at_ 0; at_ 3; at_ 6] Monitor.init (Store.mkDisk None None) _ _).
  - apply steady_init.
  - repeat constructor.
Defined.

(** Three ticks around noon: no boundary. *)
Lemma no_boundary_no_recap_witness :
  let at_ (sec : Z) : gmap string string * Clock.datetime :=
    ({["Server" := "UP"]}, Clock.mkdatetime (Clock.mkdate 2025 1 1) 12 0 sec) in
  Monitor.run true [at_ 0; at_ 3; at_ 6] (Monitor.init, Store.mkDisk None None)
  = (λ s', (s', Store.mkDisk None None))
      <$> Monitor.feed [at_ 0; at_ 3; at_ 6] Monitor.init.
Proof.
  intros at_.
  refine (no_boundary_no_recap true [at_ 0; at_ 3; at_ 6] Monitor.init
            (Store.mkDisk None None) _).
  repeat constructor.
Defined.

(** ** The report file, further *)

Section ReportFacts.
Import Config Store.
Local Open Scope nat_scope.

(** X8. With openpyxl, a report file that cannot be loaded, or whose first
    cell is not ["Tanggal"], is replaced by a new report that holds the
    header only: whatever rows it had are gone. *)
Theorem ensure_workbook_replaces_foreign (d : Disk) :
  xlsx d = Some Corrupt
  ∨ (∃ wb, xlsx d = Some (Book wb)
           ∧ cell_value (Rekap wb) 1 1 ≠ VStr "Tanggal") →
  ensure_workbook true d = (mkDisk (Some (Book new_workbook)) (csv d), Mxlsx)
  ∧ table true (ensure_workbook true d).1 = [map VStr full_header]
  ∧ grafik_sheet (ensure_workbook true d).1 = None.
Proof.
  intros H.
  assert (ensure_workbook true d
          = (mkDisk (Some (Book new_workbook)) (csv d), Mxlsx)) as ->.
  { unfold ensure_workbook. destruct H as [->|(wb & -> & Hne)]; [done|].
    rewrite (bool_decide_eq_false_2 (cell_value _ 1 1 = _)) by done.
    by rewrite andb_false_r. }
  done.
Qed.

Lemma ensure_kept_table (h : list value) (rest : sheet) (g : option sheet)
    (c : option (list (list string))) :
  ∃ hdr,
    table true
      (ensure_workbook true
         (mkDisk (Some (Book (mkWorkbook ((VStr "Tanggal" :: h) :: rest) g)))
                 c)).1
    = hdr :: used_rows rest.
Proof.
  destruct (has_jamdown (VStr "Tanggal" :: h)) eqn:Hj.
  - rewrite ensure_workbook_xlsx_unchanged by done.
    exists (VStr "Tanggal" :: h). unfold table. cbn [fst xlsx Rekap].
    by rewrite used_rows_cons.
  - rewrite ensure_workbook_xlsx_migrates by done.
    eexists. unfold table. cbn [fst xlsx Rekap].
    rewrite used_rows_cons; [done|]. unfold pad_to. by simpl.
Qed.

(** X7. With openpyxl, a legacy workbook (first cell ["Tanggal"], no
    header cell starting with ["JamDown "]) is migrated in place: its
    header row, filled up to the width of the sheet, gets the six
    [JamDown] columns at its right end, and every other row, the sheet
    "Grafik" and the CSV file stay as they were. *)
Theorem legacy_workbook_migrated (d : Disk) (wb : Workbook) :
  xlsx d = Some (Book wb) →
  cell_value (Rekap wb) 1 1 = VStr "Tanggal" →
  has_jamdown (default [] (Rekap wb !! 0)) = false →
  ensure_workbook true d
  = (mkDisk
       (Some (Book (mkWorkbook
                      ((pad_to (max_column (Rekap wb)) VNone
                               (default [] (Rekap wb !! 0))
                        ++ map (λ n, VStr ("JamDown " +:+ n)) REKAP_ORDER)
                       :: drop 1 (Rekap wb))
                      (Grafik wb))))
       (csv d),
     Mxlsx).
Proof.
  intros Hx Ht Hj. destruct d as [x c]. cbn [xlsx csv] in *. subst x.
  destruct wb as [ws g]. cbn [Rekap Grafik] in *.
  destruct (tanggal_shape ws Ht) as (h & rest & ->).
  cbn [lookup list_lookup default from_option id drop] in *.
  rewrite drop_0. by apply ensure_workbook_xlsx_migrates.
Qed.

(** X9. [write_rekap] is append-only on a report it keeps (a workbook
    whose first cell is ["Tanggal"], or a CSV file that is not empty): the
    data rows that were there stay as they were, in their order, and the
    new row comes after them. *)
Theorem write_rekap_keeps_rows (EXCEL_AVAILABLE : bool) (today : Clock.date)
    (counters : gmap string Z)
    (jam_map : option (gmap string (list string))) (d : Disk) :
  (if EXCEL_AVAILABLE
   then ∃ wb, xlsx d = Some (Book wb)
              ∧ cell_value (Rekap wb) 1 1 = VStr "Tanggal"
   else ∃ rows, csv d = Some rows ∧ rows ≠ []) →
  drop 1 (table EXCEL_AVAILABLE
            (write_rekap EXCEL_AVAILABLE today counters jam_map d))
  = drop 1 (table EXCEL_AVAILABLE d)
    ++ [stored EXCEL_AVAILABLE (rekap_row today counters jam_map)].
Proof.
  intros Hkept. rewrite write_rekap_appends. destruct EXCEL_AVAILABLE.
  - destruct Hkept as ([ws g] & Hx & Ht). cbn [Rekap] in Ht.
    destruct (tanggal_shape ws Ht) as (h & rest & ->).
    destruct d as [x c]. cbn [xlsx] in Hx. subst x.
    destruct (ensure_kept_table h rest g c) as [hdr ->].
    unfold table. cbn [xlsx Rekap]. by rewrite used_rows_cons.
  - destruct Hkept as (rows & Hc & Hne). unfold ensure_workbook, table.
    rewrite Hc. cbn [fst]. rewrite Hc. cbn [default]. unfold id.
    destruct rows as [|r rows]; [done|].
    cbn [map app drop]. by rewrite !drop_0.
Qed.

(** X10. Nothing removes or merges duplicates: two writes, of the same
    date or not, leave two rows, in the order of the writes. *)
Theorem write_rekap_twice (EXCEL_AVAILABLE : bool)
    (day1 day2 : Clock.date) (counters1 counters2 : gmap string Z)
    (jam1 jam2 : option (gmap string (list string))) (d : Disk) :
  table EXCEL_AVAILABLE
    (write_rekap EXCEL_AVAILABLE day2 counters2 jam2
       (write_rekap EXCEL_AVAILABLE day1 counters1 jam1 d))
  = table EXCEL_AVAILABLE (ensure_workbook EXCEL_AVAILABLE d).1
    ++ [stored EXCEL_AVAILABLE (rekap_row day1 counters1 jam1);
        stored EXCEL_AVAILABLE (rekap_row day2 counters2 jam2)].
Proof.
  rewrite write_rekap_appends, ensure_after_write, write_rekap_appends.
  by rewrite <- app_assoc.
Qed.

(** X16. A recap row lines up with the header of a new report: both have
    13 cells, the count of each target stands under its [Down] column (0
    when the counters do not mention the target) and its stamps, joined
    with [;], under its [JamDown] column (empty when there are none). *)
Theorem rekap_row_aligned (today : Clock.date) (counters : gmap string Z)
    (jam_map : option (gmap string (list string))) :
  length (rekap_row today counters jam_map) = length full_header
  ∧ length full_header = 13
  ∧ rekap_row today counters jam_map !! 0
    = Some (VStr (Clock.strftime_dmY today))
  ∧ ∀ k name, REKAP_ORDER !! k = Some name →
      full_header !! (1 + k) = Some ("Down " +:+ name)
      ∧ rekap_row today counters jam_map !! (1 + k)
        = Some (VInt (default 0%Z (counters !! name)))
      ∧ full_header !! (7 + k) = Some ("JamDown " +:+ name)
      ∧ rekap_row today counters jam_map !! (7 + k)
        = Some (VStr (PyStr.join ";"
                        (default [] (default ∅ jam_map !! name)))).
Proof.
  split; [unfold rekap_row; cbv zeta; by rewrite !length_app, !length_map|].
  split; [done|]. split; [done|].
  intros k name Hk.
  assert (k < 6) as Hlt by (apply lookup_lt_Some in Hk; simpl in Hk; lia).
  assert (name ∈ REKAP_ORDER) as Hn by (by eapply list_elem_of_lookup_2).
  split; [|split; [by apply rekap_row_count|split]].
  - unfold full_header. rewrite (lookup_app_r [_]) by (simpl; lia).
    replace (1 + k - length ["Tanggal"]) with k by (simpl; lia).
    rewrite lookup_app_l by (rewrite length_map; simpl; lia).
    by rewrite list_lookup_fmap, Hk.
  - unfold full_header. rewrite (lookup_app_r [_]) by (simpl; lia).
    rewrite lookup_app_r by (rewrite length_map; simpl; lia).
    replace (7 + k - length ["Tanggal"]
             - length (map (λ n, "Down " +:+ n) REKAP_ORDER)) with k
      by (rewrite length_map; simpl; lia).
    by rewrite list_lookup_fmap, Hk.
  - unfold rekap_row. cbv zeta.
    rewrite (lookup_app_r [_]) by (simpl; lia).
    rewrite lookup_app_r by (rewrite length_map; simpl; lia).
    replace (7 + k - length [VStr (Clock.strftime_dmY today)]
             - length (map (λ name0, VInt (default 0%Z (counters !! name0)))
                         REKAP_ORDER)) with k
      by (rewrite length_map; simpl; lia).
    rewrite list_lookup_fmap, list_lookup_fmap, Hk.
    cbn [fmap option_fmap option_map]. do 3 f_equal.
    assert ((list_to_map (map (λ n, (n, [])) REKAP_ORDER)
               : gmap string (list string)) !! name = Some []) as Hdef
      by (clear -Hn; each_target Hn ltac:(by vm_compute)).
    destruct jam_map as [j|]; cbn [default from_option id].
    + case_bool_decide as Hj; [|done]. subst j. by rewrite Hdef, lookup_empty.
    + by rewrite Hdef, lookup_empty.
Qed.

End ReportFacts.

Lemma legacy_workbook_migrated_witness :
  let wb := Store.mkWorkbook
              [[Store.VStr "Tanggal"; Store.VStr "Down Server"];
               [Store.VStr "01/01/2025"; Store.VInt 1; Store.VStr "catatan"]]
              None in
  let d := Store.mkDisk (Some (Store.Book wb)) None in
  Store.ensure_workbook true d
  = (Store.mkDisk
       (Some (Store.Book
                (Store.mkWorkbook
                   ((Store.pad_to (Store.max_column (Store.Rekap wb))
                       Store.VNone (default [] (Store.Rekap wb !! 0%nat))
                     ++ map (λ n, Store.VStr ("JamDown " +:+ n))
                          Config.REKAP_ORDER)
                    :: drop 1 (Store.Rekap wb))
                   (Store.Grafik wb))))
       (Store.csv d),
     Store.Mxlsx).
Proof.
  intros wb d.
  refine (legacy_workbook_migrated d wb _ _ _); reflexivity.
Defined.

Lemma ensure_workbook_replaces_foreign_witness :
  let d := Store.mkDisk
             (Some (Store.Book
                      (Store.mkWorkbook
                         [[Store.VStr "Date"; Store.VStr "Total"];
                          [Store.VStr "2025-01-01"; Store.VInt 4]] None)))
             None in
  Store.ensure_workbook true d
  = (Store.mkDisk (Some (Store.Book Store.new_workbook)) (Store.csv d),
     Store.Mxlsx)
  ∧ Store.table true (Store.ensure_workbook true d).1
    = [map Store.VStr Store.full_header]
  ∧ Store.grafik_sheet (Store.ensure_workbook true d).1 = None.
Proof.
  intros d. apply (ensure_workbook_replaces_foreign d).
  right. eexists. split; [reflexivity|]. discriminate.
Defined.

Lemma write_rekap_keeps_rows_witness :
  let d := Store.mkDisk None
             (Some [Store.count_header;
                    ["31/12/2024"; "0"; "1"; "0"; "0"; "0"; "0"]]) in
  drop 1 (Store.table false
            (Store.write_rekap false (Clock.mkdate 2025 1 1)
               {["Server" := 2%Z]} None d))
  = drop 1 (Store.table false d)
    ++ [Store.stored false
          (Store.rekap_row (Clock.mkdate 2025 1 1) {["Server" := 2%Z]} None)].
Proof.
  intros d.
  apply (write_rekap_keeps_rows false (Clock.mkdate 2025 1 1)
           {["Server" := 2%Z]} None d).
  eexists. split; [reflexivity|]. discriminate.
Defined.

(** ** The sheet "Grafik" *)

Section GrafikFacts.
Import Config Store.
Local Open Scope nat_scope.

Lemma body_of_drop {A} (rows : list A) : body_of rows = drop 1 rows.
Proof.
  unfold body_of. case_bool_decide; [done|].
  destruct rows as [|x [|y rows]]; simpl in *; try done. lia.
Qed.

Lemma last_n_length {A} (n : nat) (xs : list A) :
  length (last_n n xs) = Nat.min n (length xs).
Proof. unfold last_n. rewrite length_drop. lia. Qed.

(** X12. The table of the sheet "Grafik" is rebuilt from the sheet
    "Rekap" alone, which is left as it is: under the title row it has one
    row per data row of the last 30 (fewer when the report is shorter), in
    their order and with their first cell, and six integer cells each; a
    row whose counts are all zero is listed like any other. *)
Theorem update_grafik_sheet_table (wb : Workbook) :
  ∃ rows,
    update_grafik_sheet wb
    = mkWorkbook (Rekap wb) (Some (map VStr ("Tanggal" :: REKAP_ORDER) :: rows))
    ∧ length rows = Nat.min 30 (length (iter_rows (Rekap wb)) - 1)
    ∧ map (λ r, default VNone (r !! 0)) rows
      = map (λ r, default VNone (r !! 0))
            (last_n 30 (drop 1 (iter_rows (Rekap wb))))
    ∧ Forall (λ r, length r = 7 ∧ Forall (λ v, ∃ n, v = VInt n) (drop 1 r))
             rows.
Proof.
  unfold update_grafik_sheet. cbv zeta. rewrite body_of_drop.
  set (last30 := last_n 30 (drop 1 (iter_rows (Rekap wb)))).
  eexists. split; [reflexivity|]. split; [|split].
  - rewrite length_map. unfold last30. by rewrite last_n_length, length_drop.
  - rewrite map_map. done.
  - apply Forall_forall. intros r [r0 [-> _]]%list_elem_of_fmap.
    split; [done|]. cbn [drop]. rewrite drop_0.
    apply Forall_forall. intros v [name [-> _]]%list_elem_of_fmap.
    unfold grafik_count.
    destruct (header_map (Rekap wb) !! _) as [cidx|]; [|by eexists].
    destruct (_ && _); [|by eexists].
    destruct (r0 !! _) as [[| |n]|]; by eexists.
Qed.

Lemma rekap_row_counts today (counters : gmap string Z) jam_map :
  take (length REKAP_ORDER) (drop 1 (rekap_row today counters jam_map))
  = map (λ name, VInt (default 0%Z (counters !! name))) REKAP_ORDER.
Proof.
  unfold rekap_row. cbv zeta. cbn [app drop]. rewrite drop_0.
  apply take_app_length'. by rewrite length_map.
Qed.

Lemma any_down_iff today (counters : gmap string Z) jam_map :
  any_down (rekap_row today counters jam_map) = true
  ↔ Exists (λ name, (0 < default 0 (counters !! name))%Z) REKAP_ORDER.
Proof.
  unfold any_down. rewrite rekap_row_counts.
  induction REKAP_ORDER as [|n names IH]; cbn [map existsb].
  - split; [done|]. by intros H%Exists_nil.
  - rewrite orb_true_iff, Exists_cons, IH. by rewrite Z.ltb_lt.
Qed.

Lemma write_rekap_xlsx_grafik today (counters : gmap string Z) jam_map d :
  ∃ h rest g,
    ensure_workbook true d
    = (mkDisk (Some (Book (mkWorkbook ((VStr "Tanggal" :: h) :: rest) g)))
              (csv d), Mxlsx)
    ∧ write_rekap true today counters jam_map d
      = mkDisk
          (Some (Book
                   (if any_down (rekap_row today counters jam_map)
                    then update_grafik_sheet
                           (mkWorkbook
                              ((VStr "Tanggal" :: h)
                               :: used_rows rest
                                  ++ [rekap_row today counters jam_map]) g)
                    else mkWorkbook
                           ((VStr "Tanggal" :: h)
                            :: used_rows rest
                               ++ [rekap_row today counters jam_map]) g)))
          (csv d).
Proof.
  destruct (ensure_workbook_xlsx_shape d) as (h & rest & g & He & Hj).
  exists h, rest, g. split; [done|].
  unfold write_rekap. rewrite He. cbn [xlsx csv Rekap Grafik].
  unfold append. by rewrite used_rows_cons.
Qed.

(** X11. With openpyxl, [write_rekap] rebuilds the sheet "Grafik" exactly
    when the written row has a positive count: without one the sheet is as
    [ensure_workbook] left it (absent in a new report); with one the sheet
    exists afterwards and its last row is that of the date just
    written. *)
Theorem grafik_rebuilt_when_down (today : Clock.date)
    (counters : gmap string Z)
    (jam_map : option (gmap string (list string))) (d : Disk) :
  (Forall (λ name, (default 0 (counters !! name) ≤ 0)%Z) REKAP_ORDER →
   grafik_sheet (write_rekap true today counters jam_map d)
   = grafik_sheet (ensure_workbook true d).1)
  ∧ (Exists (λ name, (0 < default 0 (counters !! name))%Z) REKAP_ORDER →
     ∃ rows cells,
       grafik_sheet (write_rekap true today counters jam_map d)
       = Some (map VStr ("Tanggal" :: REKAP_ORDER) :: rows)
       ∧ last rows = Some (VStr (Clock.strftime_dmY today) :: cells)).
Proof.
  destruct (write_rekap_xlsx_grafik today counters jam_map d)
    as (h & rest & g & -> & ->).
  unfold grafik_sheet. cbn [xlsx fst].
  pose proof (any_down_iff today counters jam_map) as Hany.
  split.
  - intros Hall.
    destruct (any_down (rekap_row today counters jam_map)); [|done].
    destruct (proj1 (Exists_exists _ _) (proj1 Hany eq_refl))
      as (name & Hn & Hpos).
    apply (proj1 (Forall_forall _ _) Hall) in Hn. lia.
  - intros Hex. rewrite (proj2 Hany Hex).
    unfold update_grafik_sheet. cbv zeta. cbn [Rekap Grafik].
    rewrite body_of_drop.
    set (row := rekap_row today counters jam_map).
    set (ws := (VStr "Tanggal" :: h) :: used_rows rest ++ [row]).
    assert (iter_rows ws = map (pad_to (max_column ws) VNone) ws) as ->.
    { unfold iter_rows, ws. rewrite used_rows_cons by done.
      rewrite used_rows_snoc; [done|]. apply row_nonempty. }
    set (prow := pad_to (max_column ws) VNone row).
    assert (drop 1 (map (pad_to (max_column ws) VNone) ws)
            = map (pad_to (max_column ws) VNone) (used_rows rest) ++ [prow])
      as ->.
    { unfold prow. generalize (max_column ws). intros n. unfold ws.
      cbn [map drop]. by rewrite drop_0, map_app. }
    eexists _, _. split; [reflexivity|].
    change (map ?f (last_n 30 ?l)) with (f <$> last_n 30 l).
    rewrite fmap_last, last_last_n by lia. rewrite last_snoc.
    cbn [fmap option_fmap option_map]. do 2 f_equal.
Qed.

End GrafikFacts.

(** ** The seven-day reader *)

Section ReaderFacts.
Import Config Store.
Local Open Scope nat_scope.

Lemma collect_dom {R} (val : R → string → Z) (rows : list R) :
  dom (collect val rows) = (list_to_set REKAP_ORDER : gset string).
Proof.
  unfold collect.
  assert (dom (list_to_map (map (λ n, (n, [])) REKAP_ORDER)
                 : gmap string (list Z))
          = (list_to_set REKAP_ORDER : gset string)) as Hbase.
  { rewrite dom_list_to_map_L. by rewrite map_map. }
  revert Hbase.
  generalize (list_to_map (map (λ n, (n, [])) REKAP_ORDER)
                : gmap string (list Z)).
  induction rows as [|r rows IH]; intros data Hd; [done|].
  cbn [foldl]. apply IH. rewrite <- Hd. clear.
  revert data. induction REKAP_ORDER as [|n names IHn]; intros data; [done|].
  cbn [foldl]. rewrite IHn. by rewrite dom_alter_L.
Qed.

Lemma no_data_aligned :
  length no_data.1 ≤ 7
  ∧ dom no_data.2 = (list_to_set REKAP_ORDER : gset string)
  ∧ ∀ name series, no_data.2 !! name = Some series →
      length series = length no_data.1.
Proof.
  unfold no_data. cbn [fst snd]. split; [simpl; lia|]. split.
  - rewrite dom_list_to_map_L. by rewrite map_map.
  - intros name series Hs. apply elem_of_list_to_map_2 in Hs.
    apply list_elem_of_fmap in Hs as (n & [= -> ->] & _). done.
Qed.

Lemma read_xlsx_aligned (wb : Workbook) :
  length (read_xlsx wb).1 ≤ 7
  ∧ dom (read_xlsx wb).2 = (list_to_set REKAP_ORDER : gset string)
  ∧ ∀ name series, (read_xlsx wb).2 !! name = Some series →
      length series = length (read_xlsx wb).1.
Proof.
  unfold read_xlsx. cbv zeta. case_bool_decide; [apply no_data_aligned|].
  cbn [fst snd]. split; [|split].
  - rewrite length_map, last_n_length. lia.
  - apply collect_dom.
  - intros name series Hs.
    assert (name ∈ REKAP_ORDER) as Hn.
    { apply (elem_of_list_to_set (C := gset string)).
      rewrite <- (collect_dom (xlsx_val (default [] (iter_rows (Rekap wb) !! 0)))
                    (last_n 7 (drop 1 (iter_rows (Rekap wb))))).
      apply elem_of_dom. by eexists. }
    rewrite collect_lookup in Hs by done. injection Hs as <-.
    by rewrite !length_map.
Qed.

Lemma read_csv_aligned file dates data :
  read_csv file = Some (dates, data) →
  length dates ≤ 7
  ∧ dom data = (list_to_set REKAP_ORDER : gset string)
  ∧ ∀ name series, data !! name = Some series →
      length series = length dates.
Proof.
  assert (∀ dates data, Some no_data = Some (dates, data) →
    length dates ≤ 7
    ∧ dom data = (list_to_set REKAP_ORDER : gset string)
    ∧ ∀ name series, data !! name = Some series →
        length series = length dates) as Hno.
  { intros ds dt Heq. pose proof no_data_aligned as Ha.
    apply (inj Some) in Heq. by rewrite Heq in Ha. }
  unfold read_csv. destruct file as [rows|]; [|apply Hno].
  case_bool_decide; [apply Hno|]. cbv zeta.
  destruct (mapM _ _) as [ds|] eqn:Hm; [|done].
  cbn [mbind option_bind]. intros [= <- <-].
  apply length_mapM in Hm. split; [|split].
  - rewrite <- Hm, last_n_length. lia.
  - apply collect_dom.
  - intros name series Hs.
    assert (name ∈ REKAP_ORDER) as Hn.
    { apply (elem_of_list_to_set (C := gset string)).
      rewrite <- (collect_dom (csv_val (default [] (rows !! 0)))
                    (last_n 7 (drop 1 rows))).
      apply elem_of_dom. by eexists. }
    rewrite collect_lookup in Hs by done. injection Hs as <-.
    by rewrite length_map.
Qed.

(** X14. What [read_last_7_days] returns is aligned, whatever the report
    file holds: at most seven dates, a series for each of the six targets
    and for nothing else, and every series as long as the list of
    dates. *)
Theorem read_last_7_days_aligned (EXCEL_AVAILABLE : bool) (d : Disk)
    (dates : list string) (data : gmap string (list Z)) :
  read_last_7_days EXCEL_AVAILABLE d = Some (dates, data) →
  length dates ≤ 7
  ∧ dom data = (list_to_set REKAP_ORDER : gset string)
  ∧ ∀ name series, data !! name = Some series →
      length series = length dates.
Proof.
  unfold read_last_7_days.
  destruct (if EXCEL_AVAILABLE then xlsx d else None) as [[|wb]|];
    try apply read_csv_aligned.
  intros [= H]. pose proof (read_xlsx_aligned wb) as Ha.
  rewrite H in Ha. exact Ha.
Qed.


End ReaderFacts.

Lemma read_last_7_days_aligned_witness :
  let d := Store.mkDisk None
             (Some [Store.count_header;
                    ["30/12/2024"; "0"; "1"; "0"; "0"; "0"; "0"];
                    ["31/12/2024"; "2"; "0"; "0"; "0"; "0"; "3"]]) in
  let dates := ["30/12/2024"; "31/12/2024"] in
  let data := Store.collect (Store.csv_val Store.count_header)
                [["30/12/2024"; "0"; "1"; "0"; "0"; "0"; "0"];
                 ["31/12/2024"; "2"; "0"; "0"; "0"; "0"; "3"]] in
  (length dates ≤ 7)%nat
  ∧ dom data = (list_to_set Config.REKAP_ORDER : gset string)
  ∧ ∀ name series, data !! name = Some series →
      length series = length dates.
Proof.
  intros d dates data.
  refine (read_last_7_days_aligned false d dates data _).
  reflexivity.
Defined.

(** ** A cycle of live probes *)

Section LiveFacts.
Import Config Probe Clock Monitor.
Variable platform_system : string.
Variable PING_COUNT : string.
Variable subprocess_run : list string → outcome CompletedProcess.

Local Abbreviation results :=
  (get_results platform_system PING_COUNT subprocess_run).
Local Abbreviation probe host :=
  (subprocess_run
     ["ping"; ping_param platform_system; PING_COUNT; host]).

Lemma classify_range p : classify p ∈ ["UP"; "WARNING"; "DOWN"].
Proof.
  unfold classify. cbv zeta.
  destruct (_ || _); [set_solver|].
  destruct (_ || _); [set_solver|].
  destruct (_ || _); set_solver.
Qed.

Lemma get_results_lookup name host :
  (name, host) ∈ TARGETS →
  results !! name
  = Some (match check_target platform_system PING_COUNT subprocess_run host
          with Return st => st | Raise _ => "DOWN" end).
Proof.
  intros Hin. unfold get_results.
  apply elem_of_list_to_map_1.
  - rewrite <- list_fmap_compose. change (NoDup (map fst TARGETS)).
    rewrite TARGETS_names. apply REKAP_ORDER_NoDup.
  - apply list_elem_of_fmap. by exists (name, host).
Qed.

(** X17. With live probes, [_get_results] gives every one of the six
    targets a status, gives nothing else one, and every status is ["UP"],
    ["WARNING"] or ["DOWN"], whatever the probes do; the ["DOWN"] that
    the tracker takes for a missing result is never needed. *)
Theorem get_results_total :
  dom results = (list_to_set REKAP_ORDER : gset string)
  ∧ ∀ name st, results !! name = Some st →
      st ∈ ["UP"; "WARNING"; "DOWN"].
Proof.
  split.
  - unfold get_results. rewrite dom_list_to_map_L.
    rewrite <- list_fmap_compose. by rewrite <- TARGETS_names.
  - intros name st Hs. unfold get_results in Hs.
    apply elem_of_list_to_map_2 in Hs.
    apply list_elem_of_fmap in Hs as ([n host] & [= -> ->] & _).
    cbn [snd]. destruct (subprocess_run
      ["ping"; ping_param platform_system; PING_COUNT; host]) as [p|e] eqn:Hr.
    + rewrite (check_target_completed _ _ _ _ _ Hr). apply classify_range.
    + rewrite (check_target_raised _ _ _ _ _ Hr). set_solver.
Qed.

(** X18. A live cycle in which the probe of a target fails (it raises,
    exits with an error, reports the target unreachable or prints no loss
    statistics), while the target was not ["DOWN"] and had no open
    incident, opens an incident for it: the status becomes ["DOWN"], the
    counter grows by one and the time of the cycle is added to the
    stamps. *)
Theorem failed_probe_opens_incident (name host : string) (now : datetime)
    (s : State) (t : TargetState) :
  (name, host) ∈ TARGETS →
  failure (probe host) →
  tracked s →
  target name s = Some t →
  lastStatus t ≠ "DOWN" →
  incidentOpen t = false →
  ∃ s', track_all results now s = Some s'
        ∧ target name s'
          = Some (mkTarget "DOWN" true (downCount t + 1)
                           (downTimestamps t ++ [strftime_HM now])).
Proof.
  intros Hin Hf Htr Ht Hst Hop.
  destruct (track_all_target results now s Htr) as (s' & Hs' & _ & Hup & _).
  exists s'. split; [done|].
  assert (name ∈ REKAP_ORDER) as Hn.
  { rewrite <- TARGETS_names. apply list_elem_of_fmap. by exists (name, host). }
  rewrite (Hup name t Hn Ht), (get_results_lookup name host Hin).
  assert (check_target platform_system PING_COUNT subprocess_run host
          = Return "DOWN") as ->.
  { destruct (probe host) as [p|e] eqn:Hr.
    - rewrite (check_target_completed _ _ _ _ _ Hr).
      by rewrite classify_failure.
    - by rewrite (check_target_raised _ _ _ _ _ Hr). }
  unfold transition. cbn [default from_option id].
  rewrite (bool_decide_eq_true_2 _ Hst), Hop. done.
Qed.

End LiveFacts.

Lemma failed_probe_opens_incident_witness :
  let subprocess_run := λ _ : list string,
    Probe.Raise (A := Probe.CompletedProcess) Probe.TimeoutExpired in
  let now := Clock.mkdatetime (Clock.mkdate 2025 1 1) 9 5 0 in
  ∃ s', Monitor.track_all
          (Monitor.get_results "Linux" "2" subprocess_run) now Monitor.init
        = Some s'
        ∧ Monitor.target "Server" s'
          = Some (Monitor.mkTarget "DOWN" true (0 + 1)
                    ([] ++ [Clock.strftime_HM now])).
Proof.
  intros subprocess_run now.
  refine (failed_probe_opens_incident "Linux" "2" subprocess_run
            "Server" "192.168.8.8" now Monitor.init
            (Monitor.mkTarget "INIT" false 0 []) _ _ _ _ _ _).
  - compute_done.
  - exact I.
  - apply init_tracked.
  - reflexivity.
  - discriminate.
  - reflexivity.
Defined.

(** ** Stamps read back *)

Section StampFacts.
Import Clock Store.

Lemma all_chars_app p (a b : string) :
  PyStr.all_chars p (a +:+ b) = PyStr.all_chars p a && PyStr.all_chars p b.
Proof.
  induction a as [|c a IH]; [done|].
  change (String c a +:+ b) with (String c (a +:+ b)).
  cbn [PyStr.all_chars]. by rewrite IH, andb_assoc.
Qed.

Lemma all_chars_impl (p q : ascii → bool) (s : string) :
  (∀ c, p c = true → q c = true) →
  PyStr.all_chars p s = true → PyStr.all_chars q s = true.
Proof.
  intros Hpq. induction s as [|c s IH]; [done|]. cbn [PyStr.all_chars].
  intros [Hc Hs]%andb_true_iff. by rewrite (Hpq c Hc), IH.
Qed.

Lemma split_free (sep : ascii) (s : string) :
  PyStr.all_chars (λ c, negb (Ascii.eqb c sep)) s = true →
  PyStr.split sep s = [s].
Proof.
  induction s as [|c s IH]; [done|]. cbn [PyStr.all_chars PyStr.split].
  intros [Hc Hs]%andb_true_iff. apply negb_true_iff in Hc.
  by rewrite Hc, IH.
Qed.

Lemma split_app (sep : ascii) (a rest : string) :
  PyStr.all_chars (λ c, negb (Ascii.eqb c sep)) a = true →
  PyStr.split sep (a +:+ String sep rest) = a :: PyStr.split sep rest.
Proof.
  induction a as [|c a IH].
  - intros _. change ("" +:+ String sep rest) with (String sep rest).
    cbn [PyStr.split]. by rewrite Ascii.eqb_refl.
  - change (String c a +:+ String sep rest)
      with (String c (a +:+ String sep rest)).
    cbn [PyStr.all_chars PyStr.split].
    intros [Hc Hs]%andb_true_iff. apply negb_true_iff in Hc.
    by rewrite Hc, IH.
Qed.

Lemma strip_free (s : string) :
  PyStr.all_chars (λ c, negb (PyStr.is_space c)) s = true →
  PyStr.strip s = s.
Proof.
  intros H. unfold PyStr.strip.
  assert (PyStr.lstrip s = s) as ->.
  { destruct s as [|c s]; [done|]. cbn [PyStr.all_chars PyStr.lstrip] in *.
    apply andb_true_iff in H as [Hc _]. apply negb_true_iff in Hc.
    by rewrite Hc. }
  induction s as [|c s IH]; [done|]. cbn [PyStr.all_chars PyStr.rstrip] in *.
  apply andb_true_iff in H as [Hc Hs]. apply negb_true_iff in Hc.
  rewrite IH by done. rewrite Hc. by destruct s.
Qed.

Lemma digit_not_separator (c : ascii) :
  PyStr.is_digit c = true →
  Ascii.eqb c ":" = false ∧ Ascii.eqb c ";" = false.
Proof.
  destruct c as [[] [] [] [] [] [] [] []]; by vm_compute.
Qed.

Lemma int_of_str_uint (u : Decimal.uint) :
  u ≠ Decimal.Nil →
  PyStr.int_of_str (NilEmpty.string_of_uint u) = Some (Z.of_uint u).
Proof.
  intros Hnn.
  pose proof (string_of_uint_digits u) as Hall.
  pose proof (digits_value_uint u Hnn) as Hdv.
  unfold PyStr.int_of_str, PyStr.strip.
  rewrite digits_lstrip, digits_rstrip by done.
  destruct (NilEmpty.string_of_uint u) as [|c s] eqn:E; [by destruct u|].
  cbn [PyStr.all_chars] in Hall. apply andb_true_iff in Hall as [Hc _].
  by destruct (digit_not_special c Hc) as (_ & _ & -> & ->).
Qed.

(** A two-digit field of [strftime] is a numeral of its value. *)
Lemma pad2_uint (n : Z) :
  0 ≤ n →
  ∃ u, u ≠ Decimal.Nil ∧ PyStr.pad2 n = NilEmpty.string_of_uint u
       ∧ Z.of_uint u = n.
Proof.
  intros Hn. destruct n as [|p|p]; [|clear Hn|lia].
  { by exists (Decimal.D0 (Decimal.D0 Decimal.Nil)). }
  pose proof (DecimalPos.Unsigned.to_uint_nonnil p) as Hnn.
  pose proof (DecimalZ.of_to (Z.pos p)) as Hval.
  unfold PyStr.pad2, PyStr.str_int.
  change (Z.to_int (Z.pos p)) with (Decimal.Pos (Pos.to_uint p)) in *.
  change (Z.of_int (Decimal.Pos (Pos.to_uint p)))
    with (Z.of_uint (Pos.to_uint p)) in Hval.
  change (NilZero.string_of_int (Decimal.Pos (Pos.to_uint p)))
    with (NilZero.string_of_uint (Pos.to_uint p)).
  replace (NilZero.string_of_uint (Pos.to_uint p))
    with (NilEmpty.string_of_uint (Pos.to_uint p))
    by (by destruct (Pos.to_uint p)).
  destruct (Z.pos p <? 10).
  - exists (Decimal.D0 (Pos.to_uint p)). by repeat split.
  - by exists (Pos.to_uint p).
Qed.

Lemma pad2_facts (n : Z) :
  0 ≤ n →
  PyStr.all_chars PyStr.is_digit (PyStr.pad2 n) = true
  ∧ PyStr.pad2 n ≠ ""
  ∧ PyStr.int_of_str (PyStr.pad2 n) = Some n.
Proof.
  intros Hn. destruct (pad2_uint n Hn) as (u & Hnn & -> & <-).
  split; [apply string_of_uint_digits|]. split.
  - by destruct u.
  - by apply int_of_str_uint.
Qed.

(** X19. The joined stamps that the tracker records and [write_rekap]
    stores in a [JamDown] cell read back through
    [_parse_first_down_minutes] as the minute of the day of the first
    stamp, however many stamps follow. *)
Theorem first_stamp_minutes (now : datetime) (stamps : list string) :
  0 ≤ hour now → 0 ≤ minute now →
  parse_first_down_minutes
    (Some (PyStr.join ";" (strftime_HM now :: stamps)))
  = hour now * 60 + minute now.
Proof.
  intros Hh Hm.
  destruct (pad2_facts (hour now) Hh) as (Hdh & Hnh & Hih).
  destruct (pad2_facts (minute now) Hm) as (Hdm & Hnm & Him).
  set (a := strftime_HM now).
  assert (PyStr.split ":" a = [PyStr.pad2 (hour now); PyStr.pad2 (minute now)])
    as Hsplit.
  { unfold a, strftime_HM.
    change (":" +:+ ?s) with (String ":" s).
    rewrite split_app, split_free; [done| |].
    - eapply all_chars_impl; [|exact Hdm]. intros c Hc.
      by destruct (digit_not_separator c Hc) as [-> _].
    - eapply all_chars_impl; [|exact Hdh]. intros c Hc.
      by destruct (digit_not_separator c Hc) as [-> _]. }
  assert (PyStr.all_chars
            (λ c, PyStr.is_digit c || Ascii.eqb c ":") a = true) as Hchars.
  { unfold a, strftime_HM. rewrite !all_chars_app.
    rewrite (all_chars_impl _ _ _ (λ c H, orb_true_intro _ _ (or_introl H)) Hdh).
    by rewrite (all_chars_impl _ _ _ (λ c H, orb_true_intro _ _ (or_introl H)) Hdm). }
  assert (a ≠ "") as Hne.
  { unfold a, strftime_HM. destruct (PyStr.pad2 (hour now)); done. }
  assert (PyStr.strip a = a) as Hstrip.
  { apply strip_free. eapply all_chars_impl; [|exact Hchars].
    intros c [Hc|Hc]%orb_true_iff.
    - by destruct (digit_not_special c Hc) as (-> & _).
    - apply Ascii.eqb_eq in Hc as ->. done. }
  assert (PyStr.all_chars (λ c, negb (Ascii.eqb c ";")) a = true) as Hfree.
  { eapply all_chars_impl; [|exact Hchars].
    intros c [Hc|Hc]%orb_true_iff.
    - by destruct (digit_not_separator c Hc) as [_ ->].
    - apply Ascii.eqb_eq in Hc as ->. done. }
  assert (∃ rest, PyStr.join ";" (a :: stamps) ≠ ""
                  ∧ PyStr.split ";" (PyStr.join ";" (a :: stamps)) = a :: rest)
    as (rest & Hj & Hs).
  { destruct stamps as [|b stamps].
    - exists []. split; [done|]. by apply split_free.
    - exists (PyStr.split ";" (PyStr.join ";" (b :: stamps))).
      change (PyStr.join ";" (a :: b :: stamps))
        with (a +:+ String ";" (PyStr.join ";" (b :: stamps))).
      split; [by destruct a|]. by apply split_app. }
  unfold parse_first_down_minutes.
  rewrite (bool_decide_eq_false_2 _ Hj). cbv zeta. rewrite Hs.
  cbn [map]. rewrite Hstrip, filter_cons_True by done.
  by rewrite Hsplit, Hih, Him.
Qed.

End StampFacts.

Lemma first_stamp_minutes_witness :
  Store.parse_first_down_minutes
    (Some (PyStr.join ";"
             [Clock.strftime_HM
                (Clock.mkdatetime (Clock.mkdate 2025 1 1) 9 5 0);
              "13:40"; "23:59"]))
  = 9 * 60 + 5.
Proof.
  refine (first_stamp_minutes
            (Clock.mkdatetime (Clock.mkdate 2025 1 1) 9 5 0)
            ["13:40"; "23:59"] _ _); simpl; lia.
Defined.

(** ** The chart table and the reader *)

Section AgreementFacts.
Import Config Store.
Local Open Scope nat_scope.

Lemma index_of_snoc {A} `{EqDecision A} (x v : A) (l : list A) :
  index_of x (l ++ [v])
  = match index_of x l with
    | Some i => Some i
    | None => if decide (v = x) then Some (length l) else None
    end.
Proof.
  induction l as [|y l IH]; cbn [app index_of length].
  - by destruct (decide (v = x)).
  - destruct (decide (y = x)); [done|]. rewrite IH.
    destruct (index_of x l); [done|]. by destruct (decide (v = x)).
Qed.

Lemma index_of_absent {A} `{EqDecision A} (x : A) (l : list A) :
  filter (λ v, v = x) l = [] → index_of x l = None.
Proof.
  induction l as [|y l IH]; [done|]. cbn [index_of].
  destruct (decide (y = x)) as [->|Hne].
  - by rewrite filter_cons_True.
  - rewrite filter_cons_False by done. intros H. by rewrite IH.
Qed.

(** The text of a cell is a column title of a count only for the cell
    holding that very text. *)
Lemma down_title (name : string) (v : value) :
  str_value v = "Down " +:+ name ↔ v = VStr ("Down " +:+ name).
Proof.
  split; [|by intros ->]. destruct v as [|s|n]; cbn [str_value].
  - done.
  - by intros ->.
  - intros H. exfalso. unfold PyStr.str_int in H.
    destruct n as [|p|p]; [done| |done].
    change (Z.to_int (Z.pos p)) with (Decimal.Pos (Pos.to_uint p)) in H.
    change (NilZero.string_of_int (Decimal.Pos (Pos.to_uint p)))
      with (NilZero.string_of_uint (Pos.to_uint p)) in H.
    pose proof (DecimalPos.Unsigned.to_uint_nonnil p) as Hnn.
    pose proof (string_of_uint_digits (Pos.to_uint p)) as Hall.
    replace (NilZero.string_of_uint (Pos.to_uint p))
      with (NilEmpty.string_of_uint (Pos.to_uint p)) in H
      by (by destruct (Pos.to_uint p)).
    rewrite H in Hall. done.
Qed.

(** With at most one column of a given title, the header map of the
    chart finds the column that the reader finds. *)
Lemma header_map_prefix (ws : sheet) (name : string) (n : nat) :
  length (filter (λ v, v = VStr ("Down " +:+ name))
            (map (cell_value ws 1) (seq 1 n))) ≤ 1 →
  foldl (λ h c, <[str_value (cell_value ws 1 c) := c]> h)
        (∅ : gmap string nat) (seq 1 n) !! ("Down " +:+ name)
  = S <$> index_of (VStr ("Down " +:+ name))
                   (map (cell_value ws 1) (seq 1 n)).
Proof.
  induction n as [|n IH]; [done|].
  rewrite seq_S, map_app, foldl_app, filter_app, length_app.
  cbn [map foldl]. rewrite index_of_snoc.
  set (v := cell_value ws 1 (1 + n)).
  set (cells := map (cell_value ws 1) (seq 1 n)) in *.
  assert (length cells = n) as Hlen.
  { unfold cells. by rewrite length_map, length_seq. }
  destruct (decide (v = VStr ("Down " +:+ name))) as [Hv|Hv].
  - rewrite filter_cons_True by done. cbn [length]. intros Hc.
    rewrite (proj2 (down_title name v) Hv), lookup_insert_eq.
    rewrite index_of_absent; [by rewrite Hlen|].
    destruct (filter _ cells); [done|simpl in Hc; lia].
  - rewrite filter_cons_False by done. cbn [length]. intros Hc.
    rewrite lookup_insert_ne.
    2:{ intros Hs. by apply down_title in Hs. }
    rewrite IH by lia. by destruct (index_of _ cells).
Qed.

(** The header cells the chart reads are the header row the reader
    reads, or the sheet is empty. *)
Lemma header_cells (ws : sheet) :
  map (cell_value ws 1) (seq 1 (max_column ws))
  = default [] (iter_rows ws !! 0)
  ∨ (default [] (iter_rows ws !! 0) = []
     ∧ Forall (λ v, v = VNone)
              (map (cell_value ws 1) (seq 1 (max_column ws)))).
Proof.
  destruct ws as [|h rest].
  { right. split; [done|]. by repeat constructor. }
  destruct (used_rows (h :: rest)) as [|h' rows] eqn:Hu.
  - right. unfold iter_rows. rewrite Hu. split; [done|].
    assert (h = []) as ->.
    { simpl in Hu. destruct (used_rows rest); by destruct h. }
    apply Forall_forall. intros v [c [-> _]]%list_elem_of_fmap.
    unfold cell_value. simpl. by destruct (pred c).
  - left. rewrite headers_read. unfold iter_rows. rewrite Hu.
    assert (h' = h) as ->.
    { simpl in Hu. destruct (used_rows rest); destruct h; by simplify_eq. }
    done.
Qed.

Lemma grafik_count_reader (ws : sheet) (name : string) (r : list value) :
  length (filter (λ v, v = VStr ("Down " +:+ name))
            (default [] (iter_rows ws !! 0))) ≤ 1 →
  grafik_count (header_map ws) r name
  = VInt (xlsx_val (default [] (iter_rows ws !! 0)) r name).
Proof.
  intros Hone. unfold grafik_count, xlsx_val, header_map.
  destruct (header_cells ws) as [Hc|[Hh Hall]].
  - rewrite header_map_prefix by by rewrite Hc. rewrite Hc.
    destruct (index_of _ _) as [i|]; [|done]. cbn [fmap option_fmap option_map].
    rewrite (bool_decide_eq_true_2 (S i ≠ 0)) by done.
    replace (S i - 1) with i by lia. cbn [andb].
    case_bool_decide; [|done]. by destruct (r !! i) as [[| |m]|].
  - assert (filter (λ v, v = VStr ("Down " +:+ name))
              (map (cell_value ws 1) (seq 1 (max_column ws))) = []) as Hnone.
    { induction Hall as [|v l -> _ IHl]; [done|].
      by rewrite filter_cons_False. }
    rewrite header_map_prefix by (rewrite Hnone; simpl; lia).
    by rewrite (index_of_absent _ _ Hnone), Hh.
Qed.

Lemma last_n_map {A B} (f : A → B) (n : nat) (l : list A) :
  last_n n (map f l) = map f (last_n n l).
Proof. unfold last_n. by rewrite length_map, <- fmap_drop. Qed.

Lemma last_n_last_n {A} (n m : nat) (l : list A) :
  n ≤ m → last_n n (last_n m l) = last_n n l.
Proof.
  intros H. unfold last_n. rewrite drop_drop, length_drop. f_equal. lia.
Qed.

(** X13. When no count title stands twice in the header of the sheet
    "Rekap", the table of the sheet "Grafik" and [read_last_7_days] show
    the same report: the last seven rows of the table carry the dates
    and, target by target, the numbers that the reader returns. *)
Theorem grafik_agrees_with_reader (wb : Workbook) :
  Forall (λ name,
            length (filter (λ v, v = VStr ("Down " +:+ name))
                      (default [] (iter_rows (Rekap wb) !! 0))) ≤ 1)
         REKAP_ORDER →
  ∃ rows,
    Grafik (update_grafik_sheet wb)
    = Some (map VStr ("Tanggal" :: REKAP_ORDER) :: rows)
    ∧ map (λ row, str_value (default VNone (row !! 0))) (last_n 7 rows)
      = (read_xlsx wb).1
    ∧ ∀ k name, REKAP_ORDER !! k = Some name →
        ∃ series,
          (read_xlsx wb).2 !! name = Some series
          ∧ map (λ row, default VNone (row !! S k)) (last_n 7 rows)
            = map VInt series.
Proof.
  intros Hone. unfold update_grafik_sheet, read_xlsx. cbv zeta.
  cbn [Rekap Grafik]. rewrite body_of_drop.
  set (ws := Rekap wb) in *.
  eexists. split; [reflexivity|].
  change (map ?f (last_n 30 ?l)) with (map f (last_n 30 l)).
  rewrite last_n_map, last_n_last_n by lia.
  case_bool_decide as Hlen.
  { assert (last_n 7 (drop 1 (iter_rows ws)) = []) as ->.
    { apply length_zero_iff_nil. rewrite last_n_length, length_drop. lia. }
    split; [done|]. intros k name Hk. exists []. split; [|done].
    assert (name ∈ REKAP_ORDER) as Hn by by eapply list_elem_of_lookup_2.
    unfold no_data. cbn [snd]. each_target Hn ltac:(by vm_compute). }
  cbn [fst snd]. split.
  - rewrite map_map. done.
  - intros k name Hk.
    assert (name ∈ REKAP_ORDER) as Hn by by eapply list_elem_of_lookup_2.
    eexists. split; [by apply collect_lookup|].
    rewrite !map_map. apply map_ext_in. intros r _.
    change ((default VNone (r !! 0)
             :: map (grafik_count (header_map ws) r) REKAP_ORDER) !! S k)
      with ((grafik_count (header_map ws) r <$> REKAP_ORDER) !! k).
    rewrite list_lookup_fmap, Hk. cbn [fmap option_fmap option_map default
      from_option id].
    apply grafik_count_reader.
    by apply (proj1 (Forall_forall _ _) Hone).
Qed.

End AgreementFacts.

Lemma grafik_agrees_with_reader_witness :
  let wb := Store.mkWorkbook
              [map Store.VStr Store.full_header;
               [Store.VStr "30/12/2024"; Store.VInt 0; Store.VInt 2;
                Store.VInt 0; Store.VInt 0; Store.VInt 0; Store.VInt 1];
               [Store.VStr "31/12/2024"; Store.VInt 1; Store.VInt 0;
                Store.VInt 0; Store.VInt 0; Store.VInt 0; Store.VInt 0]]
              None in
  ∃ rows,
    Store.Grafik (Store.update_grafik_sheet wb)
    = Some (map Store.VStr ("Tanggal" :: Config.REKAP_ORDER) :: rows)
    ∧ map (λ row, Store.str_value (default Store.VNone (row !! 0%nat)))
          (Store.last_n 7 rows)
      = (Store.read_xlsx wb).1
    ∧ ∀ k name, Config.REKAP_ORDER !! k = Some name →
        ∃ series,
          (Store.read_xlsx wb).2 !! name = Some series
          ∧ map (λ row, default Store.VNone (row !! S k))
                (Store.last_n 7 rows)
            = map Store.VInt series.
Proof.
  intros wb. refine (grafik_agrees_with_reader wb _).
  repeat constructor.
Defined.
